(** * Year of net-zero and emission statistics of the SR15 scenario assessment

    A shallow embedding of the notebook
    [assessment/sr15_2.3.3_global_emissions_statistics.ipynb]: the function
    [year_of_net_zero], the function [add_statistics], and the cells that
    build and export the summary table.

    Numbers are modelled as Python has them.  A value of a time series is an
    IEEE 754 binary64 number, given by the Standard Library's [spec_float]
    at precision 53 and maximal exponent 1024: every subtraction, division
    and comparison below is the correctly rounded operation of [SpecFloat].
    A year is a Python [int], an unbounded integer of [Z].  An exception is
    a result of its own.

    The file has two parts: the definitions, then the lemmas and theorems. *)

From Stdlib Require Import ZArith List Bool Lia Ascii String DecimalString.
From Stdlib Require Import SpecFloat.
Import ListNotations.

Local Open Scope Z_scope.

(** * Part I: definitions *)

(** ** Binary64 *)

Module F64.

Definition prec : Z := 53.
Definition emax : Z := 1024.

Definition float : Type := spec_float.

Definition nan : float := S754_nan.
Definition inf : float := S754_infinity false.
Definition zero : float := S754_zero false.

Definition sub : float -> float -> float := SFsub prec emax.
Definition div : float -> float -> float := SFdiv prec emax.
Definition ltb : float -> float -> bool := SFltb.
Definition leb : float -> float -> bool := SFleb.

(** [spec_float] also has triples that denote no binary64 number; the
    numbers of a Python program are the valid ones. *)
Definition valid : float -> bool := valid_binary prec emax.

(** [np.isnan] *)
Definition isnan (f : float) : bool :=
  match f with S754_nan => true | _ => false end.

Definition is_zero (f : float) : bool :=
  match f with S754_zero _ => true | _ => false end.

Definition is_inf (f : float) : bool :=
  match f with S754_infinity _ => true | _ => false end.

(** The binary64 number nearest to an integer, ties to even; an integer
    beyond the largest finite number becomes an infinity. *)
Definition of_Z (z : Z) : float := binary_normalize prec emax z 0 false.

(** The integer part of [m * 2^e]. *)
Definition magnitude (m : positive) (e : Z) : Z :=
  match e with
  | Zneg p => Z.pos m / 2 ^ Z.pos p
  | _ => Z.pos m * 2 ^ e
  end.

(** Rounding toward zero, as [int()] does. *)
Definition trunc (f : float) : option Z :=
  match f with
  | S754_zero _ => Some 0
  | S754_finite s m e => Some (cond_Zopp s (magnitude m e))
  | _ => None
  end.

(** Rounding down, as [math.floor] does. *)
Definition floor (f : float) : option Z :=
  match f with
  | S754_zero _ => Some 0
  | S754_finite false m e => Some (magnitude m e)
  | S754_finite true m e =>
      Some (match e with
            | Zneg p => Z.neg m / 2 ^ Z.pos p
            | _ => Z.neg m * 2 ^ e
            end)
  | _ => None
  end.

(** Four classes of sign.  A NaN belongs to each of them: it has no sign,
    and every operation on it gives a NaN again. *)
Definition neg_or_nan (f : float) : bool :=
  match f with
  | S754_nan => true
  | S754_zero s | S754_infinity s | S754_finite s _ _ => s
  end.

Definition pos_or_nan (f : float) : bool :=
  match f with
  | S754_nan => true
  | S754_zero s | S754_infinity s | S754_finite s _ _ => negb s
  end.

Definition nonpos_or_nan (f : float) : bool :=
  match f with
  | S754_nan | S754_zero _ => true
  | S754_infinity s | S754_finite s _ _ => s
  end.

Definition nonneg_or_nan (f : float) : bool :=
  match f with
  | S754_nan | S754_zero _ => true
  | S754_infinity s | S754_finite s _ _ => negb s
  end.

(** The value of a finite number at the smaller of two exponents, as
    [SFsub] aligns its operands. *)
Definition aligned (s : bool) (m : positive) (e e' : Z) : Z :=
  cond_Zopp s (Z.pos (fst (shl_align m e (Z.min e e')))).

End F64.

Definition float : Type := F64.float.

(** ** Python results *)

Inductive exn : Type :=
| ValueError
| OverflowError
| ZeroDivisionError
| KeyError
| NotImplementedError
| AttributeError.

Inductive result (A : Type) : Type :=
| Returned (a : A)
| Raised (e : exn).

Arguments Returned {A} a.
Arguments Raised {A} e.

Definition bind {A B : Type} (r : result A) (k : A -> result B) : result B :=
  match r with
  | Returned a => k a
  | Raised e => Raised e
  end.

Notation "x <- r ;; k" := (bind r (fun x => k))
  (at level 61, r at next level, right associativity).

Definition raises {A : Type} (r : result A) : Prop := exists e, r = Raised e.

Fixpoint mapM {A B : Type} (f : A -> result B) (l : list A) : result (list B) :=
  match l with
  | [] => Returned []
  | a :: l' => b <- f a ;; bs <- mapM f l' ;; Returned (b :: bs)
  end.

(** A Python number: an [int] or a [float]. *)
Inductive pynum : Type :=
| PyInt (z : Z)
| PyFloat (f : float).

(** [float(n)] of an [int], which Python applies when an [int] meets a
    [float]: [OverflowError] when the integer is too large. *)
Definition to_float (z : Z) : result float :=
  let f := F64.of_Z z in
  if F64.is_inf f then Raised OverflowError else Returned f.

(** [a / b] on floats: Python raises on a zero divisor. *)
Definition truediv (a b : float) : result float :=
  if F64.is_zero b then Raised ZeroDivisionError else Returned (F64.div a b).

(** [int(q)]: truncation toward zero; a NaN and the infinities raise. *)
Definition py_int (q : float) : result Z :=
  match F64.trunc q with
  | Some n => Returned n
  | None => Raised (if F64.isnan q then ValueError else OverflowError)
  end.

(** [math.floor(q)]: rounding down; a NaN and the infinities raise. *)
Definition py_floor (q : float) : result Z :=
  match F64.floor q with
  | Some n => Returned n
  | None => Raised (if F64.isnan q then ValueError else OverflowError)
  end.

(** ** [year_of_net_zero] (lines 201-215) *)

(** The loop reads Python scalars, as a pandas Series and a pandas Index
    yield them: the values are floats, the years are ints.  It keeps
    [prev_val] and [prev_yr].  [prev_val] starts as the integer [0], which
    behaves as the float [+0.0] in each operation of the function;
    [prev_yr] starts as [np.nan], here [None], and is an [int] from the
    first assignment on.  The threshold, the integer [0] in the notebook,
    is a float here for the same reason. *)

(** [yr - prev_yr], converted for the division of line 210. *)
Definition year_gap (yr : Z) (prev_yr : option Z) : result float :=
  match prev_yr with
  | None => _ <- to_float yr ;; Returned F64.nan
  | Some p => to_float (yr - p)
  end.

(** Line 210: [x = (val - prev_val) / (yr - prev_yr)]. *)
Definition slope (prev_val : float) (prev_yr : option Z) (yr : Z) (val : float)
    : result float :=
  gap <- year_gap yr prev_yr ;;
  truediv (F64.sub val prev_val) gap.

(** Line 211, the argument of [int]: [(threshold - prev_val) / x]. *)
Definition quotient (threshold prev_val x : float) : result float :=
  truediv (F64.sub threshold prev_val) x.

(** Line 211, the sum: [prev_yr + int(...) + 1]. *)
Definition add_years (prev_yr : option Z) (n : Z) : result pynum :=
  match prev_yr with
  | None => _ <- to_float n ;; Returned (PyFloat F64.nan)
  | Some p => Returned (PyInt (p + n + 1))
  end.

(** The branch [val < threshold]. *)
Definition crossing (threshold prev_val : float) (prev_yr : option Z)
    (yr : Z) (val : float) : result pynum :=
  x <- slope prev_val prev_yr yr val ;;
  q <- quotient threshold prev_val x ;;
  n <- py_int q ;;
  add_years prev_yr n.

Fixpoint net_zero_loop (threshold prev_val : float) (prev_yr : option Z)
    (pairs : list (Z * float)) : result pynum :=
  match pairs with
  | [] => Returned (PyFloat F64.inf)
  | (yr, val) :: rest =>
      if F64.isnan val then net_zero_loop threshold prev_val prev_yr rest
      else if F64.ltb val threshold
           then crossing threshold prev_val prev_yr yr val
           else net_zero_loop threshold val (Some yr) rest
  end.

Definition year_of_net_zero (data : list float) (years : list Z)
    (threshold : float) : result pynum :=
  net_zero_loop threshold F64.zero None (combine years data).

(** *** The formula of the specification *)

(** The formula of the specification for a crossing between the points
    [(prev_year, prev_value)] and [(year, value)]:
    [prev_year + floor((threshold - prev_value) / slope) + 1] with
    [slope = (value - prev_value) / (year - prev_year)]. *)
Definition interpolated_year (threshold prev_value : float) (prev_year year : Z)
    (value : float) : result pynum :=
  gap <- to_float (year - prev_year) ;;
  slope <- truediv (F64.sub value prev_value) gap ;;
  q <- truediv (F64.sub threshold prev_value) slope ;;
  n <- py_floor q ;;
  Returned (PyInt (prev_year + n + 1)).

(** *** The loop, observed *)

(** The state [(prev_val, prev_yr)] at the start of each iteration. *)
Fixpoint loop_states (threshold prev_val : float) (prev_yr : option Z)
    (pairs : list (Z * float)) : list (float * option Z) :=
  match pairs with
  | [] => []
  | (yr, val) :: rest =>
      (prev_val, prev_yr) ::
      (if F64.isnan val then loop_states threshold prev_val prev_yr rest
       else if F64.ltb val threshold then []
            else loop_states threshold val (Some yr) rest)
  end.

(** The iteration that takes the branch [val < threshold], if one does: the
    state it starts in and the pair it reads. *)
Record crossing_at : Type := {
  at_prev_val : float;
  at_prev_yr : option Z;
  at_yr : Z;
  at_val : float
}.

Fixpoint crossing_point (threshold prev_val : float) (prev_yr : option Z)
    (pairs : list (Z * float)) : option crossing_at :=
  match pairs with
  | [] => None
  | (yr, val) :: rest =>
      if F64.isnan val then crossing_point threshold prev_val prev_yr rest
      else if F64.ltb val threshold
           then Some {| at_prev_val := prev_val; at_prev_yr := prev_yr;
                        at_yr := yr; at_val := val |}
           else crossing_point threshold val (Some yr) rest
  end.

(** What the loop keeps on a series of increasing years: once a previous
    point is set, it is a valid number at or above the threshold, and its
    year is before every year still to come. *)
Definition state_ok (threshold prev_val : float) (prev_yr : option Z)
    (rest : list (Z * float)) : Prop :=
  match prev_yr with
  | None => True
  | Some p =>
      F64.valid prev_val = true /\ F64.isnan prev_val = false /\
      F64.ltb prev_val threshold = false /\ Forall (fun q => p < fst q) rest
  end.

(** The same at the iteration of the crossing. *)
Definition crossing_ok (threshold : float) (c : crossing_at) : Prop :=
  F64.valid (at_val c) = true /\ F64.ltb (at_val c) threshold = true /\
  match at_prev_yr c with
  | None => True
  | Some p =>
      F64.valid (at_prev_val c) = true /\ F64.isnan (at_prev_val c) = false /\
      F64.ltb (at_prev_val c) threshold = false /\ p < at_yr c
  end.

(** ** Series *)

Definition missing (p : Z * float) : bool := F64.isnan (snd p).

Definition below (threshold : float) (p : Z * float) : bool :=
  F64.ltb (snd p) threshold.

(** The last pair of a list whose value is present. *)
Definition last_present (pairs : list (Z * float)) : option (Z * float) :=
  List.find (fun p => negb (missing p)) (rev pairs).

(** The series without its missing entries. *)
Definition drop_missing (pairs : list (Z * float)) : list (Z * float) :=
  filter (fun p => negb (missing p)) pairs.

Fixpoint increasing (years : list Z) : bool :=
  match years with
  | [] => true
  | y :: rest =>
      match rest with
      | [] => true
      | y' :: _ => (y <? y') && increasing rest
      end
  end.

(** ** The crossing search of the specification *)

Module Spec.

(** What section 4.1 of the specification says of one series: processed in
    increasing year order, missing values skipped, [prev_value] starting at
    0 and [prev_year] undefined; below the threshold the crossing year is
    [prev_year + floor((threshold - prev_value) / slope) + 1] with
    [slope = (value - prev_value) / (year - prev_year)]; a series that
    never goes below the threshold has no crossing.  Where the formula has
    no value (an undefined [prev_year], a zero divisor, a quotient that is
    no finite number) the outcome is [Undefined]. *)
Inductive outcome : Type :=
| Crossing (year : Z)
| NeverCrosses
| Undefined.

Definition finite_of_Z (z : Z) : option float :=
  let f := F64.of_Z z in if F64.is_inf f then None else Some f.

Definition ratio (a b : float) : option float :=
  if F64.is_zero b then None else Some (F64.div a b).

Definition interpolate (threshold prev_value : float) (prev_year : option Z)
    (year : Z) (value : float) : outcome :=
  match prev_year with
  | None => Undefined
  | Some py =>
      match finite_of_Z (year - py) with
      | None => Undefined
      | Some gap =>
          match ratio (F64.sub value prev_value) gap with
          | None => Undefined
          | Some slope =>
              match ratio (F64.sub threshold prev_value) slope with
              | None => Undefined
              | Some q =>
                  match F64.floor q with
                  | None => Undefined
                  | Some n => Crossing (py + n + 1)
                  end
              end
          end
      end
  end.

Fixpoint search (threshold prev_value : float) (prev_year : option Z)
    (pairs : list (Z * float)) : outcome :=
  match pairs with
  | [] => NeverCrosses
  | (year, value) :: rest =>
      if F64.isnan value then search threshold prev_value prev_year rest
      else if F64.ltb value threshold
           then interpolate threshold prev_value prev_year year value
           else search threshold value (Some year) rest
  end.

Fixpoint insert (p : Z * float) (l : list (Z * float)) : list (Z * float) :=
  match l with
  | [] => [p]
  | q :: l' => if fst p <=? fst q then p :: q :: l' else q :: insert p l'
  end.

Definition sort_by_year (l : list (Z * float)) : list (Z * float) :=
  fold_right insert [] l.

Definition crossing_search (threshold : float) (pairs : list (Z * float))
    : outcome :=
  search threshold F64.zero None (sort_by_year pairs).

(** A result of the code agrees with an outcome. *)
Definition agrees (r : result pynum) (o : outcome) : Prop :=
  match o with
  | Crossing y => r = Returned (PyInt y)
  | NeverCrosses => r = Returned (PyFloat F64.inf)
  | Undefined => raises r
  end.

End Spec.

(** ** Scenario tables *)

(** A scenario with the category that the cohort filters test. *)
Record scenario : Type := {
  model : string;
  scenario_name : string;
  category : string
}.

(** A pandas Series over the scenarios. *)
Definition series : Type := list (scenario * float).

(** A pandas DataFrame as [timeseries()] returns it: one column per year,
    one row of values per scenario. *)
Record frame : Type := {
  columns : list Z;
  rows : list (scenario * list float)
}.

Fixpoint position (y : Z) (cols : list Z) : option nat :=
  match cols with
  | [] => None
  | c :: cs => if c =? y then Some 0%nat else option_map S (position y cs)
  end.

Definition value_at (k : nat) (vals : list float) : float := nth k vals F64.nan.

Definition locate (data : frame) (y : Z) : result nat :=
  match position y (columns data) with
  | Some k => Returned k
  | None => Raised KeyError
  end.

(** [data[j]] for one year. *)
Definition getitem (data : frame) (j : Z) : result series :=
  k <- locate data j ;;
  Returned (map (fun r => (fst r, value_at k (snd r))) (rows data)).

(** [data[years]] for a list of years. *)
Definition getitems (data : frame) (years : list Z) : result frame :=
  ks <- mapM (locate data) years ;;
  Returned {| columns := years;
              rows := map (fun r => (fst r, map (fun k => value_at k (snd r)) ks))
                          (rows data) |}.

(** The value of a scenario's row at a year, missing when the year is no
    column. *)
Definition value_of (data : frame) (vals : list float) (y : Z) : float :=
  match position y (columns data) with
  | Some k => value_at k vals
  | None => F64.nan
  end.

(** Series arithmetic is elementwise and raises nothing: [a - b] on two
    columns of one table, and [a / n] by an integer. *)
Definition series_sub (a b : series) : series :=
  map (fun p => (fst (fst p), F64.sub (snd (fst p)) (snd (snd p)))) (combine a b).

Definition series_div (a : series) (n : Z) : series :=
  map (fun p => (fst p, F64.div (snd p) (F64.of_Z n))) a.

(** Line 247: [(data[j] - data[i]) / (j - i)]. *)
Definition abs_ann_change (data : frame) (i j : Z) : result series :=
  dj <- getitem data j ;;
  di <- getitem data i ;;
  Returned (series_div (series_sub dj di) (j - i)).

Definition as_float (n : pynum) : float :=
  match n with
  | PyInt z => F64.of_Z z
  | PyFloat f => f
  end.

(** Line 251: [data.apply(year_of_net_zero, years=data.columns,
    threshold=0, axis=1)]. *)
Definition apply_net_zero (data : frame) : result series :=
  mapM (fun r => y <- year_of_net_zero (snd r) (columns data) F64.zero ;;
                 Returned (fst r, as_float y))
       (rows data).

(** ** Text *)

Definition text (parts : list string) : string := String.concat "" parts.

Definition string_of_Z (z : Z) : string :=
  if z <? 0
  then text ["-"%string; NilZero.string_of_uint (N.to_uint (Z.to_N (- z)))]
  else NilZero.string_of_uint (N.to_uint (Z.to_N z)).

(** ['{}-{}'.format(i, j)] *)
Definition pair_label (i j : Z) : string :=
  text [string_of_Z i; "-"%string; string_of_Z j].

Fixpoint zeros (n : nat) : string :=
  match n with
  | O => EmptyString
  | S n' => String "0"%char (zeros n')
  end.

Definition pad_left (width : nat) (s : string) : string :=
  text [zeros (width - String.length s); s].

(** [n / d] rounded to the nearest integer, ties to even, for [0 < d]. *)
Definition round_half_even (n d : Z) : Z :=
  let q := n / d in
  match 2 * (n mod d) ?= d with
  | Lt => q
  | Gt => q + 1
  | Eq => if Z.even q then q else q + 1
  end.

(** ['{:.Nf}'.format(x)]: the exact value of [x], rounded to [decimals]
    digits after the point. *)
Definition format_fixed (decimals : nat) (x : float) : string :=
  let unit := 10 ^ Z.of_nat decimals in
  let digits (n : Z) : string :=
    text [string_of_Z (n / unit);
          match decimals with
          | O => EmptyString
          | _ => text ["."%string; pad_left decimals (string_of_Z (n mod unit))]
          end] in
  let sign (s : bool) : string := if s then "-"%string else EmptyString in
  match x with
  | S754_nan => "nan"%string
  | S754_infinity s => text [sign s; "inf"%string]
  | S754_zero s => text [sign s; digits 0]
  | S754_finite s m e =>
      text [sign s;
            digits match e with
                   | Zneg p => round_half_even (Z.pos m * unit) (2 ^ Z.pos p)
                   | _ => Z.pos m * unit * 2 ^ e
                   end]
  end.

(** ** The statistics of pyam *)

(** Modelled from the spec: [pyam.Statistics] is a library class, so its
    methods [add] and [summarize] are not under src/.  Section 4.2 of the
    specification gives the records: one for each cohort, header and
    sub-header, holding the distribution of the values of the scenarios of
    the cohort, where missing values are left out and the count is the
    number of the values that are present.  Where the specification and the
    notebook differ, the model follows the notebook and the library it
    calls: the note of lines 431-432 says that pyam shows one kind of range
    in all cells and knows no bound of 7, and a record that is added again
    under its key takes the place of the earlier one, as [combine_first]
    has it, where section 5 speaks of a store that only grows. *)

Inductive stat : Type := Mean | Min | P25 | P50 | P75 | Max.

(** A row of [describe()]. *)
Record describe_row : Type := {
  count : nat;
  vmean : float;
  vmin : float;
  q25 : float;
  q50 : float;
  q75 : float;
  vmax : float
}.

(** A name of the index or of a column: a year or a text. *)
Inductive label : Type :=
| LabelInt (z : Z)
| LabelStr (s : string).

Definition label_eqb (a b : label) : bool :=
  match a, b with
  | LabelInt x, LabelInt y => x =? y
  | LabelStr x, LabelStr y => String.eqb x y
  | _, _ => false
  end.

Record cohort : Type := {
  cohort_name : string;
  cohort_categories : list string
}.

Definition member (c : cohort) (s : scenario) : bool :=
  existsb (String.eqb (category s)) (cohort_categories c).

Record entry : Type := {
  e_cohort : string;
  e_row : string;
  e_header : string;
  e_subheader : label;
  e_describe : describe_row
}.

(** The place of a record in the table of statistics: the cohort and the
    row label of the index, the header and the sub-header of the columns. *)
Definition key : Type := (string * string * string * label)%type.

Definition entry_key (e : entry) : key :=
  (e_cohort e, e_row e, e_header e, e_subheader e).

Definition key_eqb (a b : key) : bool :=
  match a, b with
  | (c, r, h, s), (c', r', h', s') =>
      String.eqb c c' && String.eqb r r' && String.eqb h h' && label_eqb s s'
  end.

Record statistics : Type := {
  filters : list cohort;
  entries : list entry
}.

(** The values that are present. *)
Definition present (vals : list float) : list float :=
  filter (fun v => negb (F64.isnan v)) vals.

Definition cohort_values (c : cohort) (data : series) : list float :=
  map snd (filter (fun p => member c (fst p)) data).

(** [new.combine_first(old)] at one place: the new value, the old one
    where the new one is NaN. *)
Definition first_present (new old : float) : float :=
  if F64.isnan new then old else new.

(** A count of [describe()] is never NaN. *)
Definition combine_first (new old : describe_row) : describe_row :=
  {| count := count new;
     vmean := first_present (vmean new) (vmean old);
     vmin := first_present (vmin new) (vmin old);
     q25 := first_present (q25 new) (q25 old);
     q50 := first_present (q50 new) (q50 old);
     q75 := first_present (q75 new) (q75 old);
     vmax := first_present (vmax new) (vmax old) |}.

Definition with_describe (e : entry) (d : describe_row) : entry :=
  {| e_cohort := e_cohort e;
     e_row := e_row e;
     e_header := e_header e;
     e_subheader := e_subheader e;
     e_describe := d |}.

(** The record [cur] after [e] has been added: unchanged under another key,
    combined with [e] under the key of [e]. *)
Definition absorb (e cur : entry) : entry :=
  if key_eqb (entry_key e) (entry_key cur)
  then with_describe cur (combine_first (e_describe e) (e_describe cur))
  else cur.

Definition absorb_all (new : list entry) (cur : entry) : entry :=
  fold_left (fun cur e => absorb e cur) new cur.

(** A record enters the table: at its key if the table has the key, as a
    new place otherwise. *)
Fixpoint upsert (e : entry) (store : list entry) : list entry :=
  match store with
  | [] => [e]
  | cur :: rest =>
      if key_eqb (entry_key e) (entry_key cur)
      then absorb e cur :: rest
      else cur :: upsert e rest
  end.

Definition upserts (new store : list entry) : list entry :=
  fold_left (fun acc e => upsert e acc) new store.

(** The keys of the table after a record has entered under [k]. *)
Definition keys_upsert (k : key) (ks : list key) : list key :=
  if existsb (key_eqb k) ks then ks else ks ++ [k].

Definition keys_upserts (new ks : list key) : list key :=
  fold_left (fun acc k => keys_upsert k acc) new ks.

(** The keys of the records of one [stats.add]. *)
Definition record_keys (names : list string) (labels : list label)
    (header row : string) : list key :=
  flat_map (fun n => map (fun l => (n, row, header, l)) labels) names.

Section Describe.

(** The reductions of pandas over the values that are present: the mean,
    the extremes and the percentiles.  They are taken as given. *)
Variable reduce : stat -> list float -> float.

Definition describe (vals : list float) : describe_row :=
  let kept := present vals in
  {| count := List.length kept;
     vmean := reduce Mean kept;
     vmin := reduce Min kept;
     q25 := reduce P25 kept;
     q50 := reduce P50 kept;
     q75 := reduce P75 kept;
     vmax := reduce Max kept |}.

(** The records of one [stats.add]: for each cohort, the description of
    each column over the scenarios of the cohort. *)
Definition records (cohorts : list cohort) (data : list (label * series))
    (header row : string) : list entry :=
  flat_map (fun c =>
              map (fun col =>
                     {| e_cohort := cohort_name c;
                        e_row := row;
                        e_header := header;
                        e_subheader := fst col;
                        e_describe := describe (cohort_values c (snd col)) |})
                  data)
           cohorts.

(** Modelled from the spec: [stats.add(data, header=..., row=...,
    subheader=...)] for the named columns of [data].  Without a cohort
    there is nothing to concatenate, and a table without columns cannot be
    described: both raise [ValueError].  The new records are combined with
    the table by [combine_first]. *)
Definition stats_add (data : list (label * series)) (header row : string)
    (stats : statistics) : result statistics :=
  match filters stats, data with
  | [], _ => Raised ValueError
  | _, [] => Raised ValueError
  | cohorts, _ =>
      Returned {| filters := cohorts;
                  entries := upserts (records cohorts data header row)
                                     (entries stats) |}
  end.

(** The columns of a table, each under its year. *)
Definition frame_columns (data : frame) : list (label * series) :=
  map (fun yk => (LabelInt (fst yk),
                  map (fun r => (fst r, value_at (snd yk) (snd r))) (rows data)))
      (combine (columns data) (seq 0 (List.length (columns data)))).

(** ** [add_statistics] (lines 243-252) *)

(** The loop of lines 246-249 over [compare_years]. *)
Fixpoint add_changes (data : frame) (row : string) (compare_years : list (Z * Z))
    (header_change : string) (stats : statistics) : result statistics :=
  match compare_years with
  | [] => Returned stats
  | (i, j) :: rest =>
      change <- abs_ann_change data i j ;;
      stats <- stats_add [(LabelStr (pair_label i j), change)]
                         header_change row stats ;;
      add_changes data row rest header_change stats
  end.

(** The function works on the global [stats]: it takes the object and
    returns it with the additions. *)
Definition add_statistics (data : frame) (row : string) (years : list Z)
    (compare_years : list (Z * Z)) (header header_change header_zero : string)
    (add_netzero : bool) (stats : statistics) : result statistics :=
  snapshot <- getitems data years ;;
  stats <- stats_add (frame_columns snapshot) header row stats ;;
  stats <- add_changes data row compare_years header_change stats ;;
  if add_netzero
  then netzero <- apply_net_zero data ;;
       stats_add [(LabelStr "year", netzero)] header_zero row stats
  else Returned stats.

End Describe.

(** A call on the global [stats] that returns in every table of the cohorts
    [cohorts], and does no more there than enter the records [new]. *)
Definition enters (call : statistics -> result statistics)
    (cohorts : list cohort) (new : list entry) : Prop :=
  forall stats,
    filters stats = cohorts ->
    call stats = Returned {| filters := cohorts;
                             entries := upserts new (entries stats) |}.

(** The keys of the records of one call of [add_statistics], in the order
    in which they enter. *)
Definition call_keys (names : list string) (row : string) (years : list Z)
    (compare_years : list (Z * Z)) (header header_change header_zero : string)
    (add_netzero : bool) : list key :=
  record_keys names (map LabelInt years) header row
  ++ flat_map (fun p => record_keys names [LabelStr (pair_label (fst p) (snd p))]
                                    header_change row)
              compare_years
  ++ (if add_netzero then record_keys names [LabelStr "year"] header_zero row
      else []).

(** ** The summary (lines 441-447) *)

Inductive center_stat : Type := CenterMean | CenterMedian.

Record summarize_args : Type := {
  center : center_stat;
  fullrange : option bool;
  interquartile : option bool;
  custom_format : nat
}.

Inductive range_kind : Type := FullRange | Interquartile.

(** One kind of range has to be chosen. *)
Definition range_of (args : summarize_args) : result range_kind :=
  match fullrange args, interquartile args with
  | Some true, (None | Some false) => Returned FullRange
  | (None | Some false), Some true => Returned Interquartile
  | None, None => Returned FullRange
  | _, _ => Raised NotImplementedError
  end.

Definition upper_of (k : range_kind) (d : describe_row) : float :=
  match k with FullRange => vmax d | Interquartile => q75 d end.

Definition lower_of (k : range_kind) (d : describe_row) : float :=
  match k with FullRange => vmin d | Interquartile => q25 d end.

Definition center_of (c : center_stat) (d : describe_row) : float :=
  match c with CenterMean => vmean d | CenterMedian => q50 d end.

(** The centre with the range after it. *)
Definition ranged (decimals : nat) (mid upper lower : float) : string :=
  text [format_fixed decimals mid; " ("%string; format_fixed decimals upper;
        ", "%string; format_fixed decimals lower; ")"%string].

Definition string_of_nat (n : nat) : string := string_of_Z (Z.of_nat n).

(** The count of a cell, shown when it is below the count of its line. *)
Definition count_mark (n line : nat) : string :=
  if (0 <? n)%nat && (n <? line)%nat
  then text [" ["%string; string_of_nat n; "]"%string]
  else EmptyString.

(** Modelled from the spec: the text of a cell, for the record at its place
    if there is one and for the largest count [line] of its line.  The
    kind of range is the one of the arguments, whatever the count. *)
Definition format_cell (c : center_stat) (k : range_kind) (decimals : nat)
    (line : nat) (record : option describe_row) : string :=
  match record with
  | None => EmptyString
  | Some d =>
      text [match count d with
            | O => EmptyString
            | S O => format_fixed decimals (q50 d)
            | _ => ranged decimals (center_of c d) (upper_of k d) (lower_of k d)
            end;
            count_mark (count d) line]
  end.

(** The first occurrences, in their order. *)
Fixpoint dedup {A : Type} (eqb : A -> A -> bool) (l : list A) : list A :=
  match l with
  | [] => []
  | a :: l' => a :: filter (fun b => negb (eqb a b)) (dedup eqb l')
  end.

(** [unique()] *)
Definition unique (l : list string) : list string := dedup String.eqb l.

Definition key_line (k : key) : string * string :=
  match k with (c, r, _, _) => (c, r) end.

Definition key_column (k : key) : string * label :=
  match k with (_, _, h, s) => (h, s) end.

Definition line_eqb (a b : string * string) : bool :=
  String.eqb (fst a) (fst b) && String.eqb (snd a) (snd b).

(** The lines of the table: the cohorts in their order, under each the row
    labels in their order, where the table has a record. *)
Definition table_index (ks : list key) : list (string * string) :=
  flat_map (fun c =>
              flat_map (fun r =>
                          if existsb (fun k => line_eqb (c, r) (key_line k)) ks
                          then [(c, r)] else [])
                       (unique (map (fun k => snd (key_line k)) ks)))
           (unique (map (fun k => fst (key_line k)) ks)).

Definition column_eqb (a b : string * label) : bool :=
  String.eqb (fst a) (fst b) && label_eqb (snd a) (snd b).

(** The columns of the table: the headers in their order, under each the
    sub-headers in their order, where the table has a record. *)
Definition table_columns (ks : list key) : list (string * label) :=
  flat_map (fun h =>
              flat_map (fun s =>
                          if existsb (fun k => column_eqb (h, s) (key_column k)) ks
                          then [(h, s)] else [])
                       (dedup label_eqb (map (fun k => snd (key_column k)) ks)))
           (unique (map (fun k => fst (key_column k)) ks)).

Definition lookup (k : key) (store : list entry) : option describe_row :=
  option_map e_describe (find (fun e => key_eqb k (entry_key e)) store).

(** The largest count of the records of a line. *)
Definition line_count (line : string * string) (store : list entry) : nat :=
  fold_right Nat.max 0%nat
    (map (fun e => count (e_describe e))
         (filter (fun e => line_eqb line (key_line (entry_key e))) store)).

(** The first column of the table: the count of the line, if above 1. *)
Definition count_text (n : nat) : string :=
  if (1 <? n)%nat then string_of_nat n else EmptyString.

Record table_row : Type := {
  r_index : string * string;
  r_count : string;
  r_cells : list string
}.

Record table : Type := {
  t_columns : list (string * label);
  t_rows : list table_row
}.

Definition summary_row (c : center_stat) (k : range_kind) (decimals : nat)
    (store : list entry) (cols : list (string * label)) (line : string * string)
    : table_row :=
  {| r_index := line;
     r_count := count_text (line_count line store);
     r_cells :=
       map (fun col =>
              format_cell c k decimals (line_count line store)
                          (lookup (fst line, snd line, fst col, snd col) store))
           cols |}.

(** Modelled from the spec: [stats.summarize(...)], a table with a line for
    each cohort and row label, a column of counts and a column for each
    header and sub-header; a place without a record is an empty cell.
    Before the first [add] there is no table to summarize. *)
Definition summarize (args : summarize_args) (stats : statistics)
    : result table :=
  match entries stats with
  | [] => Raised AttributeError
  | store =>
      k <- range_of args ;;
      let ks := map entry_key store in
      let cols := table_columns ks in
      Returned {| t_columns := cols;
                  t_rows := map (summary_row (center args) k (custom_format args)
                                             store cols)
                                (table_index ks) |}
  end.

(** [swaplevel(0, 1, axis=0)] *)
Definition swaplevel (t : list table_row) : list table_row :=
  map (fun r => {| r_index := (snd (r_index r), fst (r_index r));
                   r_count := r_count r;
                   r_cells := r_cells r |})
      t.

(** [reindex(index=index, level=0)] *)
Definition reindex (index : list string) (t : list table_row)
    : list table_row :=
  flat_map (fun a => filter (fun r => String.eqb a (fst (r_index r))) t) index.

(** Line 441: [center='median', interquartile=True, custom_format='{:.1f}']. *)
Definition summary_args : summarize_args :=
  {| center := CenterMedian;
     fullrange := None;
     interquartile := Some true;
     custom_format := 1 |}.

(** Lines 441-447: the lines of the summary come out under their row
    label first, the row labels in the order of the summary of pyam. *)
Definition summary (stats : statistics) : result table :=
  t <- summarize summary_args stats ;;
  let index := unique (map (fun r => snd (r_index r)) (t_rows t)) in
  Returned {| t_columns := t_columns t;
              t_rows := reindex index (swaplevel (t_rows t)) |}.


(** The index of the summary of lines 441-447 over a table with the keys
    [ks]. *)
Definition summary_index (ks : list key) : list (string * string) :=
  let lines := table_index ks in
  flat_map (fun a => filter (fun p => String.eqb a (fst p))
                            (map (fun p => (snd p, fst p)) lines))
           (unique (map snd lines)).

(** ** The notebook *)

(** The tables that the cells of lines 268-413 hand to [add_statistics], and
    the list [cats_15_no_lo] of the specifications file. *)
Record tables : Type := {
  co2 : frame;
  co2_ene_ind_gross : frame;
  co2_ene_ind : frame;
  co2_afolu : frame;
  ccs_bio : frame;
  ghg : frame;
  cats_15_no_lo : list string
}.

Definition years : list Z :=
  [2010; 2020; 2030; 2040; 2050; 2060; 2070; 2080; 2090; 2100].

Definition compare_years : list (Z * Z) :=
  [(2010, 2030); (2020, 2030); (2030, 2050)].

Definition header : string := "Annual emissions/sequestration (GtCO2)".
Definition header_change : string := "Absolute annual change (GtCO2)".
Definition header_zero : string := "Timing of global zero".

(** The names of the cohorts of lines 166-174. *)
Definition cohort_names : list string :=
  ["below 1.5"; "lo os 1.5"; "no & lo os 1.5"; "hi os 1.5"; "lower 2.0";
   "higher 2.0"; "lower 2.5"; "lower 3.0"]%string.

(** The row labels of the calls of lines 281-422. *)
Definition row_labels : list string :=
  ["Total CO2 (net)";
   "CO2 from fossil fuels and industry (gross)";
   "CO2 from fossil fuels and industry (net)";
   "CO2 from AFOLU";
   "Bioenergy combined with carbon capture and storage (BECCS)";
   "Kyoto GHG (AR4, GtCO2e)"]%string.

(** The keys of the records of the six calls of lines 281-422. *)
Definition run_keys : list key :=
  let keys row add_netzero :=
    call_keys cohort_names row years compare_years
              header header_change header_zero add_netzero in
  keys "Total CO2 (net)"%string true
  ++ keys "CO2 from fossil fuels and industry (gross)"%string false
  ++ keys "CO2 from fossil fuels and industry (net)"%string false
  ++ keys "CO2 from AFOLU"%string false
  ++ keys "Bioenergy combined with carbon capture and storage (BECCS)"%string false
  ++ keys "Kyoto GHG (AR4, GtCO2e)"%string true.

Section Notebook.

Variable reduce : stat -> list float -> float.

(** Lines 165-175: a new [pyam.Statistics] with the eight cohorts. *)
Definition new_statistics (input : tables) : statistics :=
  {| filters :=
       [ {| cohort_name := "below 1.5"; cohort_categories := ["Below 1.5C"%string] |};
         {| cohort_name := "lo os 1.5"; cohort_categories := ["1.5C low overshoot"%string] |};
         {| cohort_name := "no & lo os 1.5"; cohort_categories := cats_15_no_lo input |};
         {| cohort_name := "hi os 1.5"; cohort_categories := ["1.5C high overshoot"%string] |};
         {| cohort_name := "lower 2.0"; cohort_categories := ["Lower 2C"%string] |};
         {| cohort_name := "higher 2.0"; cohort_categories := ["Higher 2C"%string] |};
         {| cohort_name := "lower 2.5"; cohort_categories := ["Lower 2.5C"%string] |};
         {| cohort_name := "lower 3.0"; cohort_categories := ["Lower 3C"%string] |} ];
     entries := [] |}.

(** [add_statistics(data, row, **statistics_settings, add_netzero=...)] *)
Definition add_with_settings (data : frame) (row : string) (add_netzero : bool)
    (stats : statistics) : result statistics :=
  add_statistics reduce data row years compare_years
    header header_change header_zero add_netzero stats.

(** The calls of lines 281, 333, 342, 364, 393 and 422. *)
Definition add_all (input : tables) (stats : statistics) : result statistics :=
  stats <- add_with_settings (co2 input) "Total CO2 (net)" true stats ;;
  stats <- add_with_settings (co2_ene_ind_gross input)
             "CO2 from fossil fuels and industry (gross)" false stats ;;
  stats <- add_with_settings (co2_ene_ind input)
             "CO2 from fossil fuels and industry (net)" false stats ;;
  stats <- add_with_settings (co2_afolu input) "CO2 from AFOLU" false stats ;;
  stats <- add_with_settings (ccs_bio input)
             "Bioenergy combined with carbon capture and storage (BECCS)"
             false stats ;;
  add_with_settings (ghg input) "Kyoto GHG (AR4, GtCO2e)" true stats.

(** A run of the notebook in a session whose global [stats] holds
    [session]: the global is assigned anew, filled, and summarized.  The
    run returns the global it leaves and the table it exports. *)
Definition run (input : tables) (session : statistics)
    : result (statistics * table) :=
  let stats := new_statistics input in
  stats <- add_all input stats ;;
  table <- summary stats ;;
  Returned (stats, table).

End Notebook.

(** * Part II: lemmas and theorems *)

(** ** Facts of binary64 *)

Module F64Facts.

Import F64.

Lemma digits2_bounds (m : positive) :
  2 ^ (Z.pos (digits2_pos m) - 1) <= Z.pos m < 2 ^ Z.pos (digits2_pos m).
Proof.
  induction m as [m IH | m IH |]; cbn [digits2_pos].
  - rewrite Pos2Z.inj_succ.
    replace (Z.succ (Z.pos (digits2_pos m)) - 1)
      with (Z.succ (Z.pos (digits2_pos m) - 1)) by lia.
    rewrite !Z.pow_succ_r by lia. lia.
  - rewrite Pos2Z.inj_succ.
    replace (Z.succ (Z.pos (digits2_pos m)) - 1)
      with (Z.succ (Z.pos (digits2_pos m) - 1)) by lia.
    rewrite !Z.pow_succ_r by lia. lia.
  - cbn. lia.
Qed.

Lemma iter_xO_value (m d : positive) :
  Z.pos (Pos.iter xO m d) = Z.pos m * 2 ^ Z.pos d.
Proof.
  induction d as [| d IH] using Pos.peano_ind.
  - cbn. lia.
  - rewrite Pos.iter_succ, Pos2Z.inj_succ, Z.pow_succ_r by lia.
    rewrite Pos2Z.inj_xO, IH. lia.
Qed.

Lemma shl_align_value (m : positive) (e e' : Z) :
  e' <= e ->
  Z.pos (fst (shl_align m e e')) = Z.pos m * 2 ^ (e - e').
Proof.
  intros Hle. unfold shl_align.
  destruct (e' - e) as [| d | d] eqn:Hd; cbn [fst].
  - replace (e - e') with 0 by lia. cbn. lia.
  - lia.
  - rewrite iter_xO_value. f_equal. f_equal. lia.
Qed.

(** A valid finite number has at most 53 digits, and exactly 53 above the
    least exponent. *)
Lemma valid_finite_bounds (s : bool) (m : positive) (e : Z) :
  valid (S754_finite s m e) = true ->
  Z.pos m < 2 ^ 53 /\ -1074 <= e /\ (-1074 < e -> 2 ^ 52 <= Z.pos m).
Proof.
  unfold valid. cbn [valid_binary].
  unfold bounded, canonical_mantissa, fexp, emin, prec, emax.
  intros H. apply andb_true_iff in H. destruct H as [H _].
  apply Z.eqb_eq in H.
  pose proof (digits2_bounds m) as [Hlo Hhi].
  set (d := Z.pos (digits2_pos m)) in *.
  assert (Hd : d <= 53 /\ -1074 <= e /\ (-1074 < e -> d = 53)) by lia.
  destruct Hd as (Hd1 & Hd2 & Hd3).
  split; [| split]; [| exact Hd2 |].
  - apply Z.lt_le_trans with (2 ^ d); [exact Hhi |].
    apply Z.pow_le_mono_r; lia.
  - intros He. rewrite (Hd3 He) in Hlo. exact Hlo.
Qed.

Lemma pow2_gap (a b : Z) : a < b -> 2 <= 2 ^ (b - a).
Proof.
  intros H. change 2 with (2 ^ 1) at 1. apply Z.pow_le_mono_r; lia.
Qed.

(** On valid numbers the comparison of [SpecFloat], which reads the
    exponents first, is the comparison of the aligned integers. *)
Lemma compare_aligned (sx sy : bool) (mx my : positive) (ex ey : Z) :
  valid (S754_finite sx mx ex) = true ->
  valid (S754_finite sy my ey) = true ->
  SFcompare (S754_finite sx mx ex) (S754_finite sy my ey)
  = Some (aligned sx mx ex ey ?= aligned sy my ey ex).
Proof.
  intros Hx Hy.
  apply valid_finite_bounds in Hx. destruct Hx as (Hx1 & Hx2 & Hx3).
  apply valid_finite_bounds in Hy. destruct Hy as (Hy1 & Hy2 & Hy3).
  unfold aligned. rewrite !shl_align_value by lia.
  cbn [SFcompare]. f_equal.
  rewrite Pos.compare_cont_spec. cbn [Pos.switch_Eq].
  change (Pos.compare mx my) with (Z.pos mx ?= Z.pos my).
  destruct (Z.compare_spec ex ey) as [He | He | He].
  - subst ey. rewrite Z.min_id, Z.sub_diag. cbn [Z.pow]. rewrite !Z.mul_1_r.
    destruct (Z.compare_spec (Z.pos mx) (Z.pos my)) as [Hm | Hm | Hm];
      destruct sx, sy; cbn [cond_Zopp CompOpp]; symmetry;
      first [ apply Z.compare_eq_iff | apply Z.compare_lt_iff
            | apply Z.compare_gt_iff ]; lia.
  - rewrite Z.min_l, (Z.min_r ey ex), !Z.sub_diag by lia.
    cbn [Z.pow]. rewrite Z.mul_1_r.
    pose proof (pow2_gap ex ey He) as Hp.
    assert (Hlt : Z.pos mx < Z.pos my * 2 ^ (ey - ex)) by nia.
    destruct sx, sy; cbn [cond_Zopp]; symmetry;
      first [ apply Z.compare_lt_iff | apply Z.compare_gt_iff ]; lia.
  - rewrite Z.min_r, (Z.min_l ey ex), !Z.sub_diag by lia.
    cbn [Z.pow]. rewrite Z.mul_1_r.
    pose proof (pow2_gap ey ex He) as Hp.
    assert (Hlt : Z.pos my < Z.pos mx * 2 ^ (ex - ey)) by nia.
    destruct sx, sy; cbn [cond_Zopp]; symmetry;
      first [ apply Z.compare_lt_iff | apply Z.compare_gt_iff ]; lia.
Qed.

(** Rounding keeps the sign. *)
Lemma binary_round_aux_sign (s : bool) (m e : Z) (l : location) :
  (if s then neg_or_nan else pos_or_nan) (binary_round_aux prec emax s m e l)
  = true.
Proof.
  unfold binary_round_aux.
  destruct (shr_fexp prec emax m e l) as [mrs' e'].
  destruct (shr_fexp prec emax _ e' loc_Exact) as [mrs'' e''].
  destruct (shr_m mrs'') as [| p | p]; [| destruct (e'' <=? emax - prec) |];
    destruct s; reflexivity.
Qed.

Lemma binary_round_sign (s : bool) (m : positive) (e : Z) :
  (if s then neg_or_nan else pos_or_nan) (binary_round prec emax s m e) = true.
Proof.
  unfold binary_round.
  destruct (shl_align m e _) as [mz ez]. apply binary_round_aux_sign.
Qed.

Lemma binary_normalize_neg (z e : Z) (sz : bool) :
  z < 0 -> neg_or_nan (binary_normalize prec emax z e sz) = true.
Proof.
  destruct z as [| p | p]; try lia. intros _.
  exact (binary_round_sign true p e).
Qed.

Lemma binary_normalize_pos (z e : Z) (sz : bool) :
  0 < z -> pos_or_nan (binary_normalize prec emax z e sz) = true.
Proof.
  destruct z as [| p | p]; try lia. intros _.
  exact (binary_round_sign false p e).
Qed.

Lemma neg_or_nan_nonpos (f : float) :
  neg_or_nan f = true -> nonpos_or_nan f = true.
Proof. destruct f as [s | s | | s m e]; cbn; intros H; auto. Qed.

Lemma binary_normalize_nonpos (z e : Z) :
  z <= 0 -> nonpos_or_nan (binary_normalize prec emax z e false) = true.
Proof.
  intros Hz. destruct (Z.eq_dec z 0) as [-> | Hne]; [reflexivity |].
  apply neg_or_nan_nonpos, binary_normalize_neg. lia.
Qed.

Lemma of_Z_pos (z : Z) : 0 < z -> pos_or_nan (of_Z z) = true.
Proof. apply binary_normalize_pos. Qed.

(** [x - y] is negative when [x < y]. *)
Lemma sub_lt_sign (x y : float) :
  valid x = true -> valid y = true ->
  ltb x y = true -> neg_or_nan (sub x y) = true.
Proof.
  intros Hx Hy. unfold ltb, SFltb, sub.
  destruct x as [sx | sx | | sx mx ex], y as [sy | sy | | sy my ey];
    try (cbn; try destruct sx; try destruct sy; cbn; congruence).
  rewrite (compare_aligned _ _ _ _ _ _ Hx Hy). cbn [SFsub].
  intros Hc. apply binary_normalize_neg.
  unfold aligned in Hc. rewrite (Z.min_comm ey ex) in Hc.
  destruct (Z.compare_spec
              (cond_Zopp sx (Z.pos (fst (shl_align mx ex (Z.min ex ey)))))
              (cond_Zopp sy (Z.pos (fst (shl_align my ey (Z.min ex ey))))));
    try discriminate. lia.
Qed.

(** [x - y] is negative or zero when [x <= y]. *)
Lemma sub_le_sign (x y : float) :
  valid x = true -> valid y = true ->
  leb x y = true -> nonpos_or_nan (sub x y) = true.
Proof.
  intros Hx Hy. unfold leb, SFleb, sub.
  destruct x as [sx | sx | | sx mx ex], y as [sy | sy | | sy my ey];
    try (cbn; try destruct sx; try destruct sy; cbn; congruence).
  rewrite (compare_aligned _ _ _ _ _ _ Hx Hy). cbn [SFsub].
  intros Hc. apply binary_normalize_nonpos.
  unfold aligned in Hc. rewrite (Z.min_comm ey ex) in Hc.
  destruct (Z.compare_spec
              (cond_Zopp sx (Z.pos (fst (shl_align mx ex (Z.min ex ey)))))
              (cond_Zopp sy (Z.pos (fst (shl_align my ey (Z.min ex ey))))));
    try discriminate; lia.
Qed.

(** The sign of a quotient. *)
Lemma div_neg_pos (a b : float) :
  neg_or_nan a = true -> pos_or_nan b = true -> neg_or_nan (div a b) = true.
Proof.
  unfold div.
  destruct a as [sa | sa | | sa ma ea], b as [sb | sb | | sb mb eb];
    cbn [neg_or_nan pos_or_nan]; intros Ha Hb;
    try (apply negb_true_iff in Hb); subst; try reflexivity.
  cbn [SFdiv xorb].
  destruct (SFdiv_core_binary prec emax (Z.pos ma) ea (Z.pos mb) eb)
    as [[mz ez] lz].
  exact (binary_round_aux_sign true mz ez lz).
Qed.

Lemma div_nonpos_neg (a b : float) :
  nonpos_or_nan a = true -> neg_or_nan b = true ->
  nonneg_or_nan (div a b) = true.
Proof.
  unfold div.
  destruct a as [sa | sa | | sa ma ea], b as [sb | sb | | sb mb eb];
    cbn [nonpos_or_nan neg_or_nan]; intros Ha Hb; subst; try reflexivity.
  cbn [SFdiv xorb].
  destruct (SFdiv_core_binary prec emax (Z.pos ma) ea (Z.pos mb) eb)
    as [[mz ez] lz].
  pose proof (binary_round_aux_sign false mz ez lz) as H.
  destruct (binary_round_aux prec emax false mz ez lz); cbn in *; auto.
Qed.

Lemma div_nan_r (a : float) : div a nan = nan.
Proof. destruct a; reflexivity. Qed.

Lemma div_nan_l (b : float) : div nan b = nan.
Proof. destruct b; reflexivity. Qed.

Lemma sub_nan_l (b : float) : sub nan b = nan.
Proof. destruct b; reflexivity. Qed.

Lemma sub_nan_r (a : float) : sub a nan = nan.
Proof. destruct a; reflexivity. Qed.

(** The order of the comparison. *)
Lemma compare_antisym (a b : float) :
  SFcompare b a = option_map CompOpp (SFcompare a b).
Proof.
  destruct a as [sa | sa | | sa ma ea], b as [sb | sb | | sb mb eb];
    cbn [SFcompare option_map]; try reflexivity;
    try (destruct sa; reflexivity); try (destruct sb; reflexivity);
    try (destruct sa, sb; reflexivity).
  rewrite !Pos.compare_cont_spec. cbn [Pos.switch_Eq].
  rewrite (Z.compare_antisym ea eb), (Pos.compare_antisym ma mb).
  destruct sa, sb; try reflexivity;
    destruct (ea ?= eb); cbn [CompOpp]; try reflexivity;
    destruct (ma ?= mb)%positive; reflexivity.
Qed.

Lemma ltb_false_leb (p t : float) :
  isnan p = false -> isnan t = false -> ltb p t = false -> leb t p = true.
Proof.
  intros Hp Ht. unfold ltb, leb, SFltb, SFleb. rewrite (compare_antisym p t).
  destruct p, t; try discriminate;
    destruct (SFcompare _ _) as [[ | | ] |] eqn:E; cbn; try congruence;
    cbn in E; discriminate.
Qed.

Lemma ltb_not_nan (a b : float) :
  ltb a b = true -> isnan a = false /\ isnan b = false.
Proof. destruct a, b; cbn; try discriminate; auto. Qed.

Lemma leb_not_nan (a b : float) :
  leb a b = true -> isnan a = false /\ isnan b = false.
Proof. destruct a, b; cbn; try discriminate; auto. Qed.

Ltac cmp_cases :=
  repeat match goal with
    | H : context [Pos.compare_cont Eq ?a ?b] |- _ =>
        rewrite (Pos.compare_cont_spec a b Eq) in H; cbn [Pos.switch_Eq] in H
    | |- context [Pos.compare_cont Eq ?a ?b] =>
        rewrite (Pos.compare_cont_spec a b Eq); cbn [Pos.switch_Eq]
    end;
  repeat match goal with
    | H : context [Z.compare ?a ?b] |- _ => destruct (Z.compare_spec a b)
    | |- context [Z.compare ?a ?b] => destruct (Z.compare_spec a b)
    | H : context [Pos.compare ?a ?b] |- _ => destruct (Pos.compare_spec a b)
    | |- context [Pos.compare ?a ?b] => destruct (Pos.compare_spec a b)
    end.

(** [v < t] and not [p < t] give [v < p]. *)
Lemma ltb_leb_trans (v t p : float) :
  ltb v t = true -> ltb p t = false -> isnan p = false -> ltb v p = true.
Proof.
  unfold ltb, SFltb.
  destruct v as [sv | sv | | sv mv ev], t as [st | st | | st mt et],
    p as [sp | sp | | sp mp ep]; cbn [SFcompare isnan]; try discriminate;
    try (destruct sv); try (destruct st); try (destruct sp);
    try discriminate; try reflexivity; intros H1 H2 _;
    cmp_cases; cbn [CompOpp] in *; subst;
    try discriminate; try reflexivity; try lia.
Qed.

Lemma magnitude_nonneg (m : positive) (e : Z) : 0 <= magnitude m e.
Proof.
  unfold magnitude. destruct e as [| p | p].
  - lia.
  - pose proof (Z.pow_pos_nonneg 2 (Z.pos p)). lia.
  - apply Z.div_pos; [lia |]. apply Z.pow_pos_nonneg; lia.
Qed.

End F64Facts.


(** ** Facts of [year_of_net_zero] *)

Lemma raises_raised {A : Type} (e : exn) : raises (@Raised A e).
Proof. exists e. reflexivity. Qed.

(** On a quotient that is not negative, [int] rounds as [math.floor]. *)
Lemma py_int_floor (q : float) :
  F64.nonneg_or_nan q = true ->
  py_int q = py_floor q /\ (forall n, py_int q = Returned n -> 0 <= n).
Proof.
  unfold py_int, py_floor.
  destruct q as [s | s | | s m e];
    cbn [F64.nonneg_or_nan F64.trunc F64.floor F64.isnan];
    intros H; (split; [| intros n Hn; inversion Hn; subst; try lia]);
    try reflexivity.
  - apply negb_true_iff in H. subst s. reflexivity.
  - apply negb_true_iff in H. subst s. cbn [cond_Zopp].
    apply F64Facts.magnitude_nonneg.
Qed.

Lemma combine_fst_snd {A B : Type} (l : list (A * B)) :
  combine (map fst l) (map snd l) = l.
Proof.
  induction l as [| [a b] l IH]; cbn; [reflexivity | now rewrite IH].
Qed.

Lemma increasing_cons (y : Z) (l : list Z) :
  increasing (y :: l) = true ->
  Forall (fun z => y < z) l /\ increasing l = true.
Proof.
  revert y. induction l as [| a l IH]; intros y H.
  - split; [constructor | reflexivity].
  - cbn [increasing] in H. apply andb_true_iff in H. destruct H as [Hya Hl].
    apply Z.ltb_lt in Hya. split; [| exact Hl].
    constructor; [exact Hya |].
    destruct (IH a Hl) as [Hall _].
    eapply Forall_impl; [| exact Hall]. cbn. intros z Hz. lia.
Qed.

Lemma increasing_combine {B : Type} (years : list Z) (data : list B) :
  increasing years = true -> increasing (map fst (combine years data)) = true.
Proof.
  revert data. induction years as [| y years IH]; intros data H.
  - reflexivity.
  - destruct data as [| d data]; [reflexivity |].
    destruct (increasing_cons y years H) as [Hall Hinc].
    specialize (IH data Hinc). cbn [combine map fst].
    destruct (combine years data) as [| [y' d'] rest] eqn:E; [reflexivity |].
    cbn [map fst] in *.
    change (increasing (y :: y' :: map fst rest))
      with ((y <? y') && increasing (y' :: map fst rest)).
    rewrite IH, andb_true_r.
    apply Z.ltb_lt.
    assert (Hin : In y' years).
    { apply (in_combine_l years data y' d'). rewrite E. now left. }
    rewrite Forall_forall in Hall. exact (Hall y' Hin).
Qed.

Lemma valid_combine (years : list Z) (data : list float) :
  forallb F64.valid data = true ->
  Forall (fun p => F64.valid (snd p) = true) (combine years data).
Proof.
  intros H. rewrite forallb_forall in H. apply Forall_forall.
  intros [y v] Hin. apply in_combine_r in Hin. exact (H v Hin).
Qed.

Section Loop.

Variable threshold : float.

(** The loop ends where [crossing_point] says. *)
Lemma net_zero_loop_crossing_point (prev_val : float) (prev_yr : option Z)
    (pairs : list (Z * float)) :
  net_zero_loop threshold prev_val prev_yr pairs =
  match crossing_point threshold prev_val prev_yr pairs with
  | Some c => crossing threshold (at_prev_val c) (at_prev_yr c) (at_yr c) (at_val c)
  | None => Returned (PyFloat F64.inf)
  end.
Proof.
  revert prev_val prev_yr.
  induction pairs as [| [yr val] rest IH]; intros prev_val prev_yr;
    cbn [net_zero_loop crossing_point]; [reflexivity |].
  destruct (F64.isnan val); [apply IH |].
  destruct (F64.ltb val threshold); [reflexivity | apply IH].
Qed.

(** A series with no value below the threshold is read to its end. *)
Lemma net_zero_loop_never (prev_val : float) (prev_yr : option Z)
    (pairs : list (Z * float)) :
  Forall (fun p => missing p = false -> below threshold p = false) pairs ->
  net_zero_loop threshold prev_val prev_yr pairs = Returned (PyFloat F64.inf).
Proof.
  intros H. revert prev_val prev_yr.
  induction H as [| [yr val] rest Hp _ IH]; intros prev_val prev_yr;
    cbn [net_zero_loop]; [reflexivity |].
  unfold missing, below in Hp. cbn [snd] in Hp.
  destruct (F64.isnan val); [apply IH |].
  rewrite (Hp eq_refl). apply IH.
Qed.

(** Missing entries leave the loop as it is. *)
Lemma net_zero_loop_drop_missing (prev_val : float) (prev_yr : option Z)
    (pairs : list (Z * float)) :
  net_zero_loop threshold prev_val prev_yr (drop_missing pairs) =
  net_zero_loop threshold prev_val prev_yr pairs.
Proof.
  revert prev_val prev_yr.
  induction pairs as [| [yr val] rest IH]; intros prev_val prev_yr;
    [reflexivity |].
  unfold drop_missing in *. cbn [filter net_zero_loop].
  unfold missing at 1. cbn [snd].
  destruct (F64.isnan val) eqn:E; cbn [negb]; [apply IH |].
  cbn [net_zero_loop]. rewrite E.
  destruct (F64.ltb val threshold); [reflexivity | apply IH].
Qed.

(** The entries before the first present value do not move the state. *)
Lemma net_zero_loop_skip (prev_val : float) (prev_yr : option Z)
    (pre rest : list (Z * float)) :
  forallb missing pre = true ->
  net_zero_loop threshold prev_val prev_yr (pre ++ rest) =
  net_zero_loop threshold prev_val prev_yr rest.
Proof.
  induction pre as [| [yr val] pre IH]; intros H; [reflexivity |].
  cbn [forallb] in H. apply andb_true_iff in H. destruct H as [Hm Hpre].
  unfold missing in Hm. cbn [snd] in Hm.
  cbn [app net_zero_loop]. rewrite Hm. exact (IH Hpre).
Qed.

(** Without a previous year the branch of the crossing raises. *)
Lemma crossing_undefined (prev_val : float) (yr : Z) (val : float) :
  crossing threshold prev_val None yr val =
  if F64.is_inf (F64.of_Z yr) then Raised OverflowError else Raised ValueError.
Proof.
  unfold crossing, slope, year_gap, to_float.
  destruct (F64.is_inf (F64.of_Z yr)); [reflexivity |].
  cbn [bind]. unfold truediv at 1. cbn [F64.is_zero F64.nan bind].
  change S754_nan with F64.nan. rewrite F64Facts.div_nan_r.
  unfold quotient, truediv. cbn [F64.is_zero F64.nan bind].
  change S754_nan with F64.nan. rewrite F64Facts.div_nan_r. reflexivity.
Qed.

(** With a previous point at or above the threshold and an earlier year,
    the branch of the crossing computes the formula of the specification. *)
Lemma crossing_interpolated (prev_val : float) (prev_yr yr : Z) (val : float) :
  F64.valid threshold = true ->
  F64.valid prev_val = true ->
  F64.valid val = true ->
  F64.isnan prev_val = false ->
  F64.ltb prev_val threshold = false ->
  F64.ltb val threshold = true ->
  prev_yr < yr ->
  crossing threshold prev_val (Some prev_yr) yr val =
  interpolated_year threshold prev_val prev_yr yr val
  /\ (forall x q,
        slope prev_val (Some prev_yr) yr val = Returned x ->
        quotient threshold prev_val x = Returned q ->
        F64.nonneg_or_nan q = true)
  /\ (forall z,
        crossing threshold prev_val (Some prev_yr) yr val = Returned z ->
        exists n, 0 <= n /\ z = PyInt (prev_yr + n + 1)).
Proof.
  intros Ht Hp Hv Hnan Hpt Hvt Hyr.
  destruct (F64Facts.ltb_not_nan _ _ Hvt) as [Hvn Htn].
  assert (Hvp : F64.ltb val prev_val = true)
    by exact (F64Facts.ltb_leb_trans _ _ _ Hvt Hpt Hnan).
  assert (Htp : F64.leb threshold prev_val = true)
    by exact (F64Facts.ltb_false_leb _ _ Hnan Htn Hpt).
  pose proof (F64Facts.sub_lt_sign _ _ Hv Hp Hvp) as Hd.
  pose proof (F64Facts.sub_le_sign _ _ Ht Hp Htp) as Hn.
  assert (Hgap : F64.pos_or_nan (F64.of_Z (yr - prev_yr)) = true)
    by (apply F64Facts.of_Z_pos; lia).
  pose proof (F64Facts.div_neg_pos _ _ Hd Hgap) as Hx.
  pose proof (F64Facts.div_nonpos_neg _ _ Hn Hx) as Hq.
  unfold crossing, interpolated_year, slope, quotient, year_gap.
  destruct (to_float (yr - prev_yr)) as [gap | e] eqn:Eg; cbn [bind];
    [| split; [reflexivity | split; intros; discriminate]].
  assert (Hg : gap = F64.of_Z (yr - prev_yr)).
  { unfold to_float in Eg.
    destruct (F64.is_inf (F64.of_Z (yr - prev_yr))); now inversion Eg. }
  destruct (truediv (F64.sub val prev_val) gap) as [x | e] eqn:Ex; cbn [bind];
    [| split; [reflexivity | split; intros; discriminate]].
  assert (Hx' : x = F64.div (F64.sub val prev_val) gap).
  { unfold truediv in Ex. destruct (F64.is_zero gap); now inversion Ex. }
  assert (Hxs : F64.neg_or_nan x = true) by (rewrite Hx', Hg; exact Hx).
  destruct (truediv (F64.sub threshold prev_val) x) as [q | e] eqn:Eq;
    cbn [bind].
  - assert (Hq' : q = F64.div (F64.sub threshold prev_val) x).
    { unfold truediv in Eq. destruct (F64.is_zero x); now inversion Eq. }
    assert (Hqs : F64.nonneg_or_nan q = true).
    { rewrite Hq'. exact (F64Facts.div_nonpos_neg _ _ Hn Hxs). }
    destruct (py_int_floor q Hqs) as [Hif Hpos].
    split; [| split].
    + rewrite Hif. reflexivity.
    + intros x0 q0 Hx0 Hq0. inversion Hx0; subst x0. rewrite Eq in Hq0.
      inversion Hq0; subst q0. exact Hqs.
    + intros z Hz. destruct (py_int q) as [n | e] eqn:En; [| discriminate].
      cbn [bind add_years] in Hz. inversion Hz; subst z.
      exists n. split; [exact (Hpos n eq_refl) | reflexivity].
  - split; [reflexivity | split; [| intros; discriminate]].
    intros x0 q0 Hx0 Hq0. inversion Hx0; subst x0. rewrite Eq in Hq0.
    discriminate.
Qed.

End Loop.

(** ** The loop on increasing years *)

Lemma crossing_point_ok (threshold prev_val : float) (prev_yr : option Z)
    (pairs : list (Z * float)) (c : crossing_at) :
  Forall (fun p => F64.valid (snd p) = true) pairs ->
  increasing (map fst pairs) = true ->
  state_ok threshold prev_val prev_yr pairs ->
  crossing_point threshold prev_val prev_yr pairs = Some c ->
  crossing_ok threshold c.
Proof.
  intros Hvalid. revert prev_val prev_yr.
  induction Hvalid as [| [yr val] rest Hv _ IH]; intros prev_val prev_yr Hinc Hst Hc;
    cbn [crossing_point] in Hc; [discriminate |].
  cbn [map fst] in Hinc. cbn [snd] in Hv.
  destruct (increasing_cons _ _ Hinc) as [Hall Hrest].
  assert (Hst' : state_ok threshold prev_val prev_yr rest).
  { unfold state_ok in *. destruct prev_yr as [p |]; [| exact I].
    destruct Hst as (H1 & H2 & H3 & H4). repeat split; try assumption.
    now inversion H4. }
  destruct (F64.isnan val) eqn:En; [exact (IH _ _ Hrest Hst' Hc) |].
  destruct (F64.ltb val threshold) eqn:El.
  - inversion Hc; subst c. unfold crossing_ok.
    cbn [at_val at_prev_yr at_prev_val at_yr].
    split; [exact Hv | split; [exact El |]].
    unfold state_ok in Hst. destruct prev_yr as [p |]; [| exact I].
    destruct Hst as (H1 & H2 & H3 & H4). repeat split; try assumption.
    inversion H4; subst. assumption.
  - apply (IH val (Some yr) Hrest); [| exact Hc].
    unfold state_ok. repeat split; try assumption.
    rewrite Forall_map in Hall. exact Hall.
Qed.

Lemma search_crossing_point (threshold prev_val : float) (prev_yr : option Z)
    (pairs : list (Z * float)) :
  Spec.search threshold prev_val prev_yr pairs =
  match crossing_point threshold prev_val prev_yr pairs with
  | Some c =>
      Spec.interpolate threshold (at_prev_val c) (at_prev_yr c) (at_yr c) (at_val c)
  | None => Spec.NeverCrosses
  end.
Proof.
  revert prev_val prev_yr.
  induction pairs as [| [yr val] rest IH]; intros prev_val prev_yr;
    cbn [Spec.search crossing_point]; [reflexivity |].
  destruct (F64.isnan val); [apply IH |].
  destruct (F64.ltb val threshold); [reflexivity | apply IH].
Qed.

Lemma py_floor_floor (q : float) :
  match F64.floor q with
  | Some n => py_floor q = Returned n
  | None => raises (py_floor q)
  end.
Proof.
  unfold py_floor. destruct (F64.floor q); [reflexivity | apply raises_raised].
Qed.

Lemma interpolated_agrees (threshold prev_val : float) (prev_yr yr : Z)
    (val : float) :
  Spec.agrees (interpolated_year threshold prev_val prev_yr yr val)
              (Spec.interpolate threshold prev_val (Some prev_yr) yr val).
Proof.
  unfold interpolated_year, Spec.interpolate, to_float, Spec.finite_of_Z.
  destruct (F64.is_inf (F64.of_Z (yr - prev_yr))); [apply raises_raised |].
  cbn [bind]. unfold truediv, Spec.ratio.
  destruct (F64.is_zero (F64.of_Z (yr - prev_yr))); [apply raises_raised |].
  cbn [bind].
  destruct (F64.is_zero (F64.div (F64.sub val prev_val) (F64.of_Z (yr - prev_yr))));
    [apply raises_raised |].
  cbn [bind].
  match goal with |- context [py_floor ?q] => pose proof (py_floor_floor q) as H end.
  destruct (F64.floor _) as [n |].
  - rewrite H. reflexivity.
  - destruct H as [e He]. rewrite He. apply raises_raised.
Qed.

(** What holds at the iteration of the crossing. *)
Lemma crossing_ok_facts (threshold : float) (c : crossing_at) :
  F64.valid threshold = true ->
  crossing_ok threshold c ->
  let r := crossing threshold (at_prev_val c) (at_prev_yr c) (at_yr c) (at_val c) in
  Spec.agrees r (Spec.interpolate threshold (at_prev_val c) (at_prev_yr c)
                                  (at_yr c) (at_val c))
  /\ (forall x q,
        slope (at_prev_val c) (at_prev_yr c) (at_yr c) (at_val c) = Returned x ->
        quotient threshold (at_prev_val c) x = Returned q ->
        F64.nonneg_or_nan q = true /\ py_int q = py_floor q)
  /\ (forall z, r = Returned z ->
        exists py n, at_prev_yr c = Some py /\ 0 <= n /\ z = PyInt (py + n + 1)).
Proof.
  intros Ht (Hv & Hlt & Hprev). cbn zeta.
  destruct c as [pv [py |] y v]; cbn [at_prev_val at_prev_yr at_yr at_val] in *.
  - destruct Hprev as (Hp & Hn & Hpt & Hyr).
    destruct (crossing_interpolated threshold pv py y v Ht Hp Hv Hn Hpt Hlt Hyr)
      as (Heq & Hq & Hz).
    split; [| split].
    + rewrite Heq. apply interpolated_agrees.
    + intros x q Hx Hqq. pose proof (Hq x q Hx Hqq) as Hs.
      split; [exact Hs | exact (proj1 (py_int_floor q Hs))].
    + intros z Hr. destruct (Hz z Hr) as (n & Hn0 & Hzn).
      exists py, n. repeat split; assumption.
  - split; [| split].
    + rewrite crossing_undefined. cbn [Spec.interpolate Spec.agrees].
      destruct (F64.is_inf (F64.of_Z y)); apply raises_raised.
    + intros x q Hx Hqq. unfold slope, year_gap, to_float in Hx.
      destruct (F64.is_inf (F64.of_Z y)); [discriminate |].
      cbn [bind] in Hx. unfold truediv in Hx. cbn [F64.is_zero F64.nan] in Hx.
      change S754_nan with F64.nan in Hx. rewrite F64Facts.div_nan_r in Hx.
      inversion Hx; subst x.
      unfold quotient, truediv in Hqq. cbn [F64.is_zero F64.nan] in Hqq.
      change S754_nan with F64.nan in Hqq. rewrite F64Facts.div_nan_r in Hqq.
      inversion Hqq; subst q. split; reflexivity.
    + intros z Hr. rewrite crossing_undefined in Hr.
      destruct (F64.is_inf (F64.of_Z y)); discriminate.
Qed.

Lemma insert_head (p : Z * float) (l : list (Z * float)) :
  Forall (fun q => fst p < fst q) l -> Spec.insert p l = p :: l.
Proof.
  intros H. destruct l as [| q l]; [reflexivity |].
  cbn [Spec.insert]. inversion H; subst.
  assert (E : (fst p <=? fst q) = true) by (apply Z.leb_le; lia).
  rewrite E. reflexivity.
Qed.

(** Sorting by year leaves a series of increasing years as it is. *)
Lemma sort_by_year_increasing (pairs : list (Z * float)) :
  increasing (map fst pairs) = true -> Spec.sort_by_year pairs = pairs.
Proof.
  induction pairs as [| p pairs IH]; intros H; [reflexivity |].
  cbn [map] in H. destruct (increasing_cons _ _ H) as [Hall Hinc].
  unfold Spec.sort_by_year in *. cbn [fold_right]. rewrite (IH Hinc).
  apply insert_head. rewrite Forall_map in Hall. exact Hall.
Qed.

(** The invariant of the loop: [prev_val] is never below the threshold. *)
Lemma loop_states_at_or_above (threshold prev_val : float) (prev_yr : option Z)
    (pairs : list (Z * float)) :
  F64.leb threshold prev_val = true ->
  Forall (fun st => F64.leb threshold (fst st) = true)
         (loop_states threshold prev_val prev_yr pairs).
Proof.
  revert prev_val prev_yr.
  induction pairs as [| [yr val] rest IH]; intros prev_val prev_yr H;
    cbn [loop_states]; [constructor |].
  constructor; [exact H |].
  destruct (F64.isnan val) eqn:En; [exact (IH _ _ H) |].
  destruct (F64.ltb val threshold) eqn:El; [constructor |].
  apply IH. apply F64Facts.ltb_false_leb; [exact En | | exact El].
  exact (proj1 (F64Facts.leb_not_nan _ _ H)).
Qed.

Lemma last_present_cons (p : Z * float) (pre : list (Z * float)) :
  last_present (p :: pre) =
  match last_present pre with
  | Some q => Some q
  | None => if missing p then None else Some p
  end.
Proof.
  unfold last_present. cbn [rev].
  induction (rev pre) as [| q l IH]; cbn [app find].
  - destruct (missing p); reflexivity.
  - destruct (negb (missing q)); [reflexivity | exact IH].
Qed.

(** The iteration of the crossing, from a splitting of the series at the
    first value below the threshold. *)
Lemma crossing_point_split (threshold prev_val : float) (prev_yr : option Z)
    (pre post : list (Z * float)) (y : Z) (v : float) :
  Forall (fun p => missing p = false -> below threshold p = false) pre ->
  F64.isnan v = false ->
  F64.ltb v threshold = true ->
  crossing_point threshold prev_val prev_yr (pre ++ (y, v) :: post) =
  Some {| at_prev_val := match last_present pre with
                         | Some q => snd q
                         | None => prev_val
                         end;
          at_prev_yr := match last_present pre with
                        | Some q => Some (fst q)
                        | None => prev_yr
                        end;
          at_yr := y;
          at_val := v |}.
Proof.
  intros Hpre Hn Hlt. revert prev_val prev_yr.
  induction Hpre as [| [yr val] pre Hp _ IH]; intros prev_val prev_yr.
  - cbn [app crossing_point last_present rev find]. rewrite Hn, Hlt. reflexivity.
  - cbn [app crossing_point]. rewrite last_present_cons.
    unfold missing, below in Hp. cbn [snd] in Hp.
    change (missing (yr, val)) with (F64.isnan val).
    destruct (F64.isnan val) eqn:En.
    + rewrite IH. destruct (last_present pre); reflexivity.
    + rewrite (Hp eq_refl), IH. destruct (last_present pre); reflexivity.
Qed.

(** ** The claims on [year_of_net_zero] *)

(** C1. With threshold 0, on a series of increasing years: when the first
    value below the threshold is [v], at year [y], and the last point before
    it that is not missing is [(py, pv)], the function returns
    [py + floor((0 - pv) / slope) + 1] with [slope = (v - pv) / (y - py)],
    each operation being the one of binary64; where the formula has no
    value, the function raises the exception of the formula. *)
Theorem year_of_net_zero_interpolates (data : list float) (years : list Z)
    (pre post : list (Z * float)) (py y : Z) (pv v : float) :
  forallb F64.valid data = true ->
  increasing years = true ->
  combine years data = pre ++ (y, v) :: post ->
  Forall (fun p => missing p = false -> below F64.zero p = false) pre ->
  last_present pre = Some (py, pv) ->
  F64.isnan v = false ->
  F64.ltb v F64.zero = true ->
  year_of_net_zero data years F64.zero = interpolated_year F64.zero pv py y v.
Proof.
  intros Hvalid Hinc Hsplit Hpre Hlast Hn Hlt.
  unfold year_of_net_zero. rewrite net_zero_loop_crossing_point.
  pose proof (crossing_point_split F64.zero F64.zero None pre post y v Hpre Hn Hlt)
    as Hc.
  rewrite Hlast in Hc. cbn [fst snd] in Hc. rewrite <- Hsplit in Hc.
  pose proof (crossing_point_ok F64.zero F64.zero None (combine years data) _
                (valid_combine years data Hvalid)
                (increasing_combine years data Hinc) I Hc) as Hok.
  rewrite Hc. cbn [at_prev_val at_prev_yr at_yr at_val].
  destruct Hok as (Hv & _ & Hp & Hpn & Hpt & Hyr).
  cbn [at_prev_val at_prev_yr at_yr at_val] in *.
  exact (proj1 (crossing_interpolated F64.zero pv py y v eq_refl Hp Hv Hpn Hpt Hlt Hyr)).
Qed.

(** The example of C1: years [2020, 2030] with values [1.0, -1.0] give
    2026. *)
Lemma year_of_net_zero_interpolates_example :
  year_of_net_zero [F64.of_Z 1; F64.of_Z (-1)] [2020; 2030] F64.zero
  = Returned (PyInt 2026).
Proof.
  rewrite (year_of_net_zero_interpolates
             [F64.of_Z 1; F64.of_Z (-1)] [2020; 2030]
             [(2020, F64.of_Z 1)] [] 2020 2030 (F64.of_Z 1) (F64.of_Z (-1))).
  - vm_compute. reflexivity.
  - reflexivity.
  - reflexivity.
  - reflexivity.
  - constructor; [| constructor]. intros _. reflexivity.
  - reflexivity.
  - reflexivity.
  - reflexivity.
Defined.

(** C2. A series in which no value that is present is below the threshold
    is read to the end, and the function returns positive infinity. *)
Theorem year_of_net_zero_never (data : list float) (years : list Z)
    (threshold : float) :
  (forall v, In v data -> F64.isnan v = false -> F64.ltb v threshold = false) ->
  year_of_net_zero data years threshold = Returned (PyFloat F64.inf).
Proof.
  intros H. unfold year_of_net_zero. apply net_zero_loop_never.
  apply Forall_forall. intros [y v] Hin. unfold missing, below. cbn [snd].
  apply H. exact (in_combine_r _ _ _ _ Hin).
Qed.

Lemma year_of_net_zero_never_example :
  year_of_net_zero [F64.of_Z 3; F64.nan; F64.zero; F64.of_Z 1]
                   [2010; 2020; 2030; 2040] F64.zero
  = Returned (PyFloat F64.inf).
Proof.
  apply (year_of_net_zero_never
           [F64.of_Z 3; F64.nan; F64.zero; F64.of_Z 1]
           [2010; 2020; 2030; 2040] F64.zero).
  intros v Hin Hn. cbn [In] in Hin.
  destruct Hin as [<- | [<- | [<- | [<- | []]]]];
    first [ discriminate Hn | reflexivity ].
Defined.

(** C5. When the first value that is present is already below the
    threshold, the slope is taken against the undefined [prev_yr]: slope and
    quotient are NaN and [int] raises, so the function returns no year.  (A
    year too large for a float raises before that.) *)
Theorem year_of_net_zero_first_below (data : list float) (years : list Z)
    (threshold : float) (pre post : list (Z * float)) (y : Z) (v : float) :
  combine years data = pre ++ (y, v) :: post ->
  forallb missing pre = true ->
  F64.isnan v = false ->
  F64.ltb v threshold = true ->
  raises (year_of_net_zero data years threshold)
  /\ year_of_net_zero data years threshold
     = Raised (if F64.is_inf (F64.of_Z y) then OverflowError else ValueError).
Proof.
  intros Hsplit Hpre Hn Hlt.
  assert (E : year_of_net_zero data years threshold
              = Raised (if F64.is_inf (F64.of_Z y) then OverflowError else ValueError)).
  { unfold year_of_net_zero. rewrite Hsplit, (net_zero_loop_skip _ _ _ _ _ Hpre).
    cbn [net_zero_loop]. rewrite Hn, Hlt, crossing_undefined.
    destruct (F64.is_inf (F64.of_Z y)); reflexivity. }
  split; [rewrite E; apply raises_raised | exact E].
Qed.

Lemma year_of_net_zero_first_below_example :
  raises (year_of_net_zero [F64.nan; F64.of_Z (-1); F64.of_Z 2]
                           [2010; 2020; 2030] F64.zero)
  /\ year_of_net_zero [F64.nan; F64.of_Z (-1); F64.of_Z 2]
                      [2010; 2020; 2030] F64.zero
     = Raised ValueError.
Proof.
  exact (year_of_net_zero_first_below
           [F64.nan; F64.of_Z (-1); F64.of_Z 2] [2010; 2020; 2030] F64.zero
           [(2010, F64.nan)] [(2030, F64.of_Z 2)] 2020 (F64.of_Z (-1))
           eq_refl eq_refl eq_refl eq_refl).
Defined.

(** C6. A pair whose value is missing is skipped and leaves [prev_val] and
    [prev_yr] as they are: the loop goes on in the same state, and the
    result on a series is the result on the series without its missing
    entries. *)
Theorem year_of_net_zero_skips_missing (data : list float) (years : list Z)
    (threshold : float) :
  (forall prev_val prev_yr yr rest,
      net_zero_loop threshold prev_val prev_yr ((yr, F64.nan) :: rest)
      = net_zero_loop threshold prev_val prev_yr rest)
  /\ (forall prev_val prev_yr yr rest,
        loop_states threshold prev_val prev_yr ((yr, F64.nan) :: rest)
        = (prev_val, prev_yr) :: loop_states threshold prev_val prev_yr rest)
  /\ let kept := drop_missing (combine years data) in
     year_of_net_zero (map snd kept) (map fst kept) threshold
     = year_of_net_zero data years threshold.
Proof.
  split; [reflexivity | split; [reflexivity |]]. cbn zeta.
  unfold year_of_net_zero. rewrite combine_fst_snd.
  apply net_zero_loop_drop_missing.
Qed.

(** C8, as the code has it.  For a valid threshold at or below 0, valid
    values and increasing years: [prev_val] is at or above the threshold at
    each iteration; at the iteration of the crossing the quotient is never
    negative (it is at least 0, or it is NaN, which makes [int] raise), so
    [int] rounds it as [math.floor] does; and a year that is returned is at
    least [prev_yr + 1]. *)
Theorem net_zero_invariant (data : list float) (years : list Z)
    (threshold : float) :
  F64.valid threshold = true ->
  F64.leb threshold F64.zero = true ->
  forallb F64.valid data = true ->
  increasing years = true ->
  let pairs := combine years data in
  Forall (fun st => F64.leb threshold (fst st) = true)
         (loop_states threshold F64.zero None pairs)
  /\ (forall c x q,
        crossing_point threshold F64.zero None pairs = Some c ->
        slope (at_prev_val c) (at_prev_yr c) (at_yr c) (at_val c) = Returned x ->
        quotient threshold (at_prev_val c) x = Returned q ->
        F64.nonneg_or_nan q = true /\ py_int q = py_floor q)
  /\ (forall z,
        year_of_net_zero data years threshold = Returned (PyInt z) ->
        exists c py,
          crossing_point threshold F64.zero None pairs = Some c /\
          at_prev_yr c = Some py /\ py + 1 <= z).
Proof.
  intros Ht Hle Hvalid Hinc. cbn zeta.
  split; [exact (loop_states_at_or_above _ _ _ _ Hle) | split].
  - intros c x q Hc Hx Hq.
    pose proof (crossing_point_ok threshold F64.zero None _ c
                  (valid_combine years data Hvalid)
                  (increasing_combine years data Hinc) I Hc) as Hok.
    exact (proj1 (proj2 (crossing_ok_facts threshold c Ht Hok)) x q Hx Hq).
  - intros z Hz. unfold year_of_net_zero in Hz.
    rewrite net_zero_loop_crossing_point in Hz.
    destruct (crossing_point threshold F64.zero None (combine years data))
      as [c |] eqn:Hc; [| discriminate].
    pose proof (crossing_point_ok threshold F64.zero None _ c
                  (valid_combine years data Hvalid)
                  (increasing_combine years data Hinc) I Hc) as Hok.
    destruct (proj2 (proj2 (crossing_ok_facts threshold c Ht Hok)) _ Hz)
      as (py & n & Hpy & Hn & Hzn).
    exists c, py. inversion Hzn; subst z. repeat split; [exact Hpy | lia].
Qed.

Lemma net_zero_invariant_example :
  let data := [F64.of_Z 3; F64.of_Z 1; F64.nan; F64.of_Z (-1)] in
  let years := [2010; 2020; 2030; 2040] in
  Forall (fun st => F64.leb F64.zero (fst st) = true)
         (loop_states F64.zero F64.zero None (combine years data))
  /\ (forall c x q,
        crossing_point F64.zero F64.zero None (combine years data) = Some c ->
        slope (at_prev_val c) (at_prev_yr c) (at_yr c) (at_val c) = Returned x ->
        quotient F64.zero (at_prev_val c) x = Returned q ->
        F64.nonneg_or_nan q = true /\ py_int q = py_floor q)
  /\ (forall z,
        year_of_net_zero data years F64.zero = Returned (PyInt z) ->
        exists c py,
          crossing_point F64.zero F64.zero None (combine years data) = Some c /\
          at_prev_yr c = Some py /\ py + 1 <= z).
Proof.
  exact (net_zero_invariant
           [F64.of_Z 3; F64.of_Z 1; F64.nan; F64.of_Z (-1)]
           [2010; 2020; 2030; 2040] F64.zero
           eq_refl eq_refl eq_refl eq_refl).
Defined.

(** C8 as it is stated fails on two series.  With the years [2030, 2020]
    and the values [1.0, -2.0] the branch of the crossing is taken with
    [prev_yr = 2030]: the quotient is negative, [int] gives -3 where
    [math.floor] gives -4, and the year returned, 2028, is before
    [prev_yr].  With the single value -1.0 the branch is taken in the first
    iteration and the quotient is NaN, which is not at or above 0. *)
Lemma net_zero_invariant_fails :
  (crossing_point F64.zero F64.zero None
     (combine [2030; 2020] [F64.of_Z 1; F64.of_Z (-2)])
   = Some {| at_prev_val := F64.of_Z 1; at_prev_yr := Some 2030;
             at_yr := 2020; at_val := F64.of_Z (-2) |}
   /\ exists x q,
        slope (F64.of_Z 1) (Some 2030) 2020 (F64.of_Z (-2)) = Returned x /\
        quotient F64.zero (F64.of_Z 1) x = Returned q /\
        F64.ltb q F64.zero = true /\
        py_int q = Returned (-3) /\ py_floor q = Returned (-4) /\
        year_of_net_zero [F64.of_Z 1; F64.of_Z (-2)] [2030; 2020] F64.zero
        = Returned (PyInt 2028) /\ 2028 < 2030)
  /\ (crossing_point F64.zero F64.zero None (combine [2020] [F64.of_Z (-1)])
      = Some {| at_prev_val := F64.zero; at_prev_yr := None;
                at_yr := 2020; at_val := F64.of_Z (-1) |}
      /\ exists x q,
           slope F64.zero None 2020 (F64.of_Z (-1)) = Returned x /\
           quotient F64.zero F64.zero x = Returned q /\
           F64.leb F64.zero q = false).
Proof.
  split.
  - split; [reflexivity |].
    eexists. eexists. split; [vm_compute; reflexivity |].
    split; [vm_compute; reflexivity |].
    repeat split; vm_compute; reflexivity.
  - split; [reflexivity |].
    eexists. eexists. split; [vm_compute; reflexivity |].
    split; [vm_compute; reflexivity |]. reflexivity.
Qed.

(** C9, as the code has it.  On a series of increasing years, with valid
    numbers, the result agrees with the crossing search of the
    specification over the pairs sorted by year, and a year that is returned
    is [py + n + 1] for the last year [py] at or above the threshold and an
    integer [n] that is not negative: it is after that year. *)
Theorem year_of_net_zero_refines_search (data : list float) (years : list Z)
    (threshold : float) :
  F64.valid threshold = true ->
  forallb F64.valid data = true ->
  increasing years = true ->
  Spec.agrees (year_of_net_zero data years threshold)
              (Spec.crossing_search threshold (combine years data))
  /\ (forall z,
        year_of_net_zero data years threshold = Returned (PyInt z) ->
        exists c py n,
          crossing_point threshold F64.zero None (combine years data) = Some c /\
          at_prev_yr c = Some py /\ F64.ltb (at_prev_val c) threshold = false /\
          F64.ltb (at_val c) threshold = true /\
          0 <= n /\ z = py + n + 1 /\ py < z).
Proof.
  intros Ht Hvalid Hinc.
  pose proof (valid_combine years data Hvalid) as Hv.
  pose proof (increasing_combine years data Hinc) as Hi.
  unfold Spec.crossing_search, year_of_net_zero.
  rewrite (sort_by_year_increasing _ Hi), search_crossing_point,
    net_zero_loop_crossing_point.
  destruct (crossing_point threshold F64.zero None (combine years data))
    as [c |] eqn:Hc.
  - pose proof (crossing_point_ok threshold F64.zero None _ c Hv Hi I Hc) as Hok.
    destruct (crossing_ok_facts threshold c Ht Hok) as (Hag & _ & Hz).
    split; [exact Hag |].
    intros z Hr. destruct (Hz _ Hr) as (py & n & Hpy & Hn & Hzn).
    exists c, py, n. inversion Hzn; subst z.
    destruct Hok as (_ & Hlt & Hprev). rewrite Hpy in Hprev.
    destruct Hprev as (_ & _ & Hpt & _).
    repeat split; try assumption; lia.
  - split; [reflexivity | discriminate].
Qed.

Lemma year_of_net_zero_refines_search_example :
  let data := [F64.of_Z 3; F64.of_Z 1; F64.nan; F64.of_Z (-1)] in
  let years := [2010; 2020; 2030; 2040] in
  Spec.agrees (year_of_net_zero data years F64.zero)
              (Spec.crossing_search F64.zero (combine years data))
  /\ year_of_net_zero data years F64.zero = Returned (PyInt 2031)
  /\ Spec.crossing_search F64.zero (combine years data) = Spec.Crossing 2031.
Proof.
  split; [| split; vm_compute; reflexivity].
  exact (proj1 (year_of_net_zero_refines_search
                  [F64.of_Z 3; F64.of_Z 1; F64.nan; F64.of_Z (-1)]
                  [2010; 2020; 2030; 2040] F64.zero eq_refl eq_refl eq_refl)).
Defined.

(** C9 as it is stated fails.  With the years [2020, 2030] and the values
    [1.0, -1e-20] the difference [-1e-20 - 1.0] rounds to -1.0, the slope
    to -0.1 and the quotient to 10.0: the function returns 2031, a year
    after the first year below the threshold.  No other bound takes the
    place of that year: with the years [2000, 2100] and the subnormal values
    [148 * 2^-1074, -2^-1074] the slope rounds to [-2^-1074], the quotient
    is 148.0, and the function returns 2149. *)
Lemma year_of_net_zero_beyond_first_below :
  let tiny := F64.div (F64.of_Z (-1)) (F64.of_Z (10 ^ 20)) in
  let a := S754_finite false 148 (-1074) in
  let b := S754_finite true 1 (-1074) in
  (increasing [2020; 2030] = true
   /\ forallb F64.valid [F64.of_Z 1; tiny] = true
   /\ crossing_point F64.zero F64.zero None
        (combine [2020; 2030] [F64.of_Z 1; tiny])
      = Some {| at_prev_val := F64.of_Z 1; at_prev_yr := Some 2020;
                at_yr := 2030; at_val := tiny |}
   /\ slope (F64.of_Z 1) (Some 2020) 2030 tiny
      = Returned (F64.div (F64.of_Z (-1)) (F64.of_Z 10))
   /\ quotient F64.zero (F64.of_Z 1) (F64.div (F64.of_Z (-1)) (F64.of_Z 10))
      = Returned (F64.of_Z 10)
   /\ year_of_net_zero [F64.of_Z 1; tiny] [2020; 2030] F64.zero
      = Returned (PyInt 2031)
   /\ 2030 < 2031)
  /\ (increasing [2000; 2100] = true
      /\ forallb F64.valid [a; b] = true
      /\ crossing_point F64.zero F64.zero None (combine [2000; 2100] [a; b])
         = Some {| at_prev_val := a; at_prev_yr := Some 2000;
                   at_yr := 2100; at_val := b |}
      /\ slope a (Some 2000) 2100 b = Returned b
      /\ quotient F64.zero a b = Returned (F64.of_Z 148)
      /\ year_of_net_zero [a; b] [2000; 2100] F64.zero = Returned (PyInt 2149)
      /\ 2100 + 1 < 2149).
Proof.
  cbn zeta. repeat split; vm_compute; reflexivity.
Qed.

(** ** The table of statistics *)

Lemma label_eqb_eq (a b : label) : label_eqb a b = true <-> a = b.
Proof.
  destruct a as [x | x], b as [y | y]; cbn [label_eqb].
  - rewrite Z.eqb_eq. split; congruence.
  - split; discriminate.
  - split; discriminate.
  - rewrite String.eqb_eq. split; congruence.
Qed.

Lemma key_eqb_eq (a b : key) : key_eqb a b = true <-> a = b.
Proof.
  destruct a as [[[c r] h] s], b as [[[c' r'] h'] s']. cbn [key_eqb].
  rewrite !andb_true_iff, !String.eqb_eq, label_eqb_eq. split.
  - intros [[[-> ->] ->] ->]. reflexivity.
  - intros H. inversion H. auto.
Qed.

Lemma key_eqb_refl (k : key) : key_eqb k k = true.
Proof. now apply key_eqb_eq. Qed.


Lemma existsb_key (k : key) (ks : list key) :
  existsb (key_eqb k) ks = true <-> In k ks.
Proof.
  rewrite existsb_exists. split.
  - intros (k' & Hin & E). apply key_eqb_eq in E. now subst.
  - intros Hin. exists k. split; [exact Hin | apply key_eqb_refl].
Qed.








Lemma absorb_key (e cur : entry) : entry_key (absorb e cur) = entry_key cur.
Proof. unfold absorb. now destruct (key_eqb _ _). Qed.

Lemma absorb_all_key (new : list entry) (cur : entry) :
  entry_key (absorb_all new cur) = entry_key cur.
Proof.
  revert cur. induction new as [| e new IH]; intros cur; [reflexivity |].
  cbn [absorb_all fold_left]. fold (absorb_all new (absorb e cur)).
  now rewrite IH, absorb_key.
Qed.










Lemma upsert_keys (e : entry) (store : list entry) :
  map entry_key (upsert e store) = keys_upsert (entry_key e) (map entry_key store).
Proof.
  unfold keys_upsert. induction store as [| cur rest IH]; [reflexivity |].
  cbn [upsert map existsb].
  destruct (key_eqb (entry_key e) (entry_key cur)) eqn:E; cbn [orb map].
  - now rewrite absorb_key.
  - rewrite IH. now destruct (existsb _ _).
Qed.

Lemma upserts_keys (new store : list entry) :
  map entry_key (upserts new store)
  = keys_upserts (map entry_key new) (map entry_key store).
Proof.
  revert store. induction new as [| e new IH]; intros store; [reflexivity |].
  cbn [upserts keys_upserts fold_left map].
  fold (upserts new (upsert e store)). rewrite IH, upsert_keys. reflexivity.
Qed.

Lemma keys_upsert_NoDup (k : key) (ks : list key) :
  NoDup ks -> NoDup (keys_upsert k ks).
Proof.
  intros H. unfold keys_upsert. destruct (existsb (key_eqb k) ks) eqn:E;
    [exact H |].
  apply NoDup_rev in H. rewrite <- (rev_involutive (ks ++ [k])), rev_app_distr.
  apply NoDup_rev. cbn [rev app]. constructor; [| exact H].
  rewrite <- in_rev, <- existsb_key, E. discriminate.
Qed.

Lemma keys_upserts_NoDup (new ks : list key) :
  NoDup ks -> NoDup (keys_upserts new ks).
Proof.
  revert ks. induction new as [| k new IH]; intros ks H; [exact H |].
  cbn [keys_upserts fold_left]. apply IH, keys_upsert_NoDup, H.
Qed.








Lemma upserts_app (a b store : list entry) :
  upserts (a ++ b) store = upserts b (upserts a store).
Proof. unfold upserts. apply fold_left_app. Qed.

(** ** Calls that enter records *)

Lemma enters_returned (call : statistics -> result statistics)
    (cohorts : list cohort) (new : list entry) (stats stats' : statistics) :
  enters call cohorts new ->
  filters stats = cohorts ->
  call stats = Returned stats' ->
  filters stats' = cohorts /\ entries stats' = upserts new (entries stats).
Proof.
  intros He Hf Hc. rewrite (He stats Hf) in Hc. inversion Hc. split; reflexivity.
Qed.

Lemma enters_nothing (cohorts : list cohort) :
  enters (fun stats => Returned stats) cohorts [].
Proof.
  intros [fs es] Hf. cbn in *. now subst.
Qed.

Lemma enters_bind (f g : statistics -> result statistics)
    (cohorts : list cohort) (a b : list entry) :
  enters f cohorts a -> enters g cohorts b ->
  enters (fun stats => x <- f stats ;; g x) cohorts (a ++ b).
Proof.
  intros Hf Hg stats Hs. rewrite (Hf stats Hs). cbn [bind].
  rewrite (Hg {| filters := cohorts; entries := upserts a (entries stats) |} eq_refl).
  cbn [entries]. now rewrite upserts_app.
Qed.

Lemma map_fst_combine_seq {A : Type} (l : list A) (n : nat) :
  map fst (combine l (seq n (List.length l))) = l.
Proof.
  revert n. induction l as [| a l IH]; intros n; [reflexivity |].
  cbn. now rewrite IH.
Qed.

Lemma frame_columns_labels (data : frame) :
  map fst (frame_columns data) = map LabelInt (columns data).
Proof.
  unfold frame_columns. rewrite map_map. cbn [fst].
  transitivity (map LabelInt
                  (map fst (combine (columns data)
                                    (seq 0 (List.length (columns data)))))).
  - now rewrite map_map.
  - f_equal. apply map_fst_combine_seq.
Qed.

Lemma getitems_columns (data snapshot : frame) (ys : list Z) :
  getitems data ys = Returned snapshot -> columns snapshot = ys.
Proof.
  unfold getitems. destruct (mapM (locate data) ys); cbn [bind];
    [| discriminate].
  intros H. inversion H. reflexivity.
Qed.

Section Enters.

Variable reduce : stat -> list float -> float.

Lemma records_keys (cohorts : list cohort) (data : list (label * series))
    (header row : string) :
  map entry_key (records reduce cohorts data header row)
  = record_keys (map cohort_name cohorts) (map fst data) header row.
Proof.
  unfold records, record_keys.
  induction cohorts as [| c cs IH]; [reflexivity |].
  cbn [flat_map map]. rewrite map_app, IH, !map_map. reflexivity.
Qed.

Lemma stats_add_enters (data : list (label * series)) (header row : string)
    (stats stats' : statistics) :
  stats_add reduce data header row stats = Returned stats' ->
  enters (stats_add reduce data header row) (filters stats)
         (records reduce (filters stats) data header row).
Proof.
  unfold stats_add. destruct (filters stats) as [| c cs] eqn:F; [discriminate |].
  destruct data as [| col data]; [discriminate |].
  intros _ t Ht. rewrite Ht. reflexivity.
Qed.

Lemma add_changes_enters (data : frame) (row : string) (cys : list (Z * Z))
    (hc : string) (stats stats' : statistics) :
  add_changes reduce data row cys hc stats = Returned stats' ->
  exists new,
    enters (add_changes reduce data row cys hc) (filters stats) new
    /\ map entry_key new
       = flat_map (fun p => record_keys (map cohort_name (filters stats))
                                        [LabelStr (pair_label (fst p) (snd p))]
                                        hc row)
                  cys.
Proof.
  revert stats. induction cys as [| [i j] cys IH]; intros stats H.
  - exists []. split; [apply enters_nothing | reflexivity].
  - cbn [add_changes] in H.
    destruct (abs_ann_change data i j) as [change |] eqn:Ec; cbn [bind] in H;
      [| discriminate].
    destruct (stats_add reduce _ hc row stats) as [stats1 |] eqn:Es;
      cbn [bind] in H; [| discriminate].
    pose proof (stats_add_enters _ _ _ _ _ Es) as E1.
    destruct (enters_returned _ _ _ _ _ E1 eq_refl Es) as [F1 _].
    destruct (IH stats1 H) as (new & E2 & K2). rewrite F1 in E2, K2.
    eexists. split.
    + intros t Ht. cbn [add_changes]. rewrite Ec. cbn [bind].
      exact (enters_bind _ _ _ _ _ E1 E2 t Ht).
    + rewrite map_app, records_keys, K2. reflexivity.
Qed.

Lemma add_statistics_enters (data : frame) (row : string) (ys : list Z)
    (cys : list (Z * Z)) (h hc hz : string) (add_netzero : bool)
    (stats stats' : statistics) :
  add_statistics reduce data row ys cys h hc hz add_netzero stats
  = Returned stats' ->
  exists new,
    enters (add_statistics reduce data row ys cys h hc hz add_netzero)
           (filters stats) new
    /\ map entry_key new
       = call_keys (map cohort_name (filters stats)) row ys cys h hc hz
                   add_netzero.
Proof.
  unfold add_statistics. intros H.
  destruct (getitems data ys) as [snapshot |] eqn:Eg; cbn [bind] in H;
    [| discriminate].
  destruct (stats_add reduce _ h row stats) as [stats1 |] eqn:Es;
    cbn [bind] in H; [| discriminate].
  pose proof (stats_add_enters _ _ _ _ _ Es) as E1.
  destruct (enters_returned _ _ _ _ _ E1 eq_refl Es) as [F1 _].
  destruct (add_changes reduce data row cys hc stats1) as [stats2 |] eqn:Ea;
    cbn [bind] in H; [| discriminate].
  destruct (add_changes_enters _ _ _ _ _ _ Ea) as (new2 & E2 & K2).
  rewrite F1 in E2, K2.
  destruct (enters_returned _ _ _ _ _ E2 F1 Ea) as [F2 _].
  pose proof (getitems_columns _ _ _ Eg) as Hc.
  unfold call_keys.
  destruct add_netzero.
  - destruct (apply_net_zero data) as [netzero |] eqn:En; cbn [bind] in H;
      [| discriminate].
    pose proof (stats_add_enters _ _ _ _ _ H) as E3. rewrite F2 in E3.
    eexists. split.
    + intros t Ht. cbn [bind].
      exact (enters_bind _ _ _ _ _ E1 (enters_bind _ _ _ _ _ E2 E3) t Ht).
    + rewrite !map_app, !records_keys, K2, frame_columns_labels, Hc.
      reflexivity.
  - eexists. split.
    + intros t Ht. cbn [bind].
      exact (enters_bind _ _ _ _ _ E1
               (enters_bind _ _ _ _ _ E2 (enters_nothing _)) t Ht).
    + rewrite !map_app, !records_keys, K2, frame_columns_labels, Hc.
      reflexivity.
Qed.

Lemma add_all_enters (input : tables) (stats stats' : statistics) :
  map cohort_name (filters stats) = cohort_names ->
  add_all reduce input stats = Returned stats' ->
  exists new,
    enters (add_all reduce input) (filters stats) new
    /\ map entry_key new = run_keys.
Proof.
  intros Hn H. unfold add_all in H.
  destruct (add_with_settings reduce (co2 input) _ true stats)
    as [s1 |] eqn:E1; cbn [bind] in H; [| discriminate].
  destruct (add_with_settings reduce (co2_ene_ind_gross input) _ false s1)
    as [s2 |] eqn:E2; cbn [bind] in H; [| discriminate].
  destruct (add_with_settings reduce (co2_ene_ind input) _ false s2)
    as [s3 |] eqn:E3; cbn [bind] in H; [| discriminate].
  destruct (add_with_settings reduce (co2_afolu input) _ false s3)
    as [s4 |] eqn:E4; cbn [bind] in H; [| discriminate].
  destruct (add_with_settings reduce (ccs_bio input) _ false s4)
    as [s5 |] eqn:E5; cbn [bind] in H; [| discriminate].
  unfold add_with_settings in *.
  destruct (add_statistics_enters _ _ _ _ _ _ _ _ _ _ E1) as (n1 & A1 & K1).
  destruct (enters_returned _ _ _ _ _ A1 eq_refl E1) as [F1 _].
  destruct (add_statistics_enters _ _ _ _ _ _ _ _ _ _ E2) as (n2 & A2 & K2).
  destruct (enters_returned _ _ _ _ _ A2 eq_refl E2) as [F2 _].
  destruct (add_statistics_enters _ _ _ _ _ _ _ _ _ _ E3) as (n3 & A3 & K3).
  destruct (enters_returned _ _ _ _ _ A3 eq_refl E3) as [F3 _].
  destruct (add_statistics_enters _ _ _ _ _ _ _ _ _ _ E4) as (n4 & A4 & K4).
  destruct (enters_returned _ _ _ _ _ A4 eq_refl E4) as [F4 _].
  destruct (add_statistics_enters _ _ _ _ _ _ _ _ _ _ E5) as (n5 & A5 & K5).
  destruct (enters_returned _ _ _ _ _ A5 eq_refl E5) as [F5 _].
  destruct (add_statistics_enters _ _ _ _ _ _ _ _ _ _ H) as (n6 & A6 & K6).
  rewrite F5 in *. rewrite F4 in *. rewrite F3 in *. rewrite F2 in *.
  rewrite F1 in *. rewrite Hn in *.
  exists (n1 ++ n2 ++ n3 ++ n4 ++ n5 ++ n6). split.
  - intros t Ht. unfold add_all, add_with_settings.
    exact (enters_bind _ _ _ _ _ A1
             (enters_bind _ _ _ _ _ A2
                (enters_bind _ _ _ _ _ A3
                   (enters_bind _ _ _ _ _ A4
                      (enters_bind _ _ _ _ _ A5 A6)))) t Ht).
  - rewrite !map_app, K1, K2, K3, K4, K5, K6. reflexivity.
Qed.

End Enters.

(** ** The claims on [add_statistics] *)

Lemma position_In (y : Z) (cols : list Z) :
  In y cols -> exists k, position y cols = Some k.
Proof.
  induction cols as [| c cols IH]; intros H; [destruct H |].
  cbn [position]. destruct (c =? y) eqn:E; [now exists 0%nat |].
  destruct H as [-> | H]; [rewrite Z.eqb_refl in E; discriminate |].
  destruct (IH H) as [k Hk]. exists (S k). rewrite Hk. reflexivity.
Qed.

Lemma combine_map_same {A B C : Type} (f : A -> B) (g : A -> C) (l : list A) :
  combine (map f l) (map g l) = map (fun a => (f a, g a)) l.
Proof.
  induction l as [| a l IH]; cbn; [reflexivity | now rewrite IH].
Qed.

(** The change of each scenario between two years of the table. *)
Lemma abs_ann_change_rows (data : frame) (i j : Z) :
  In i (columns data) -> In j (columns data) ->
  abs_ann_change data i j =
  Returned (map (fun r => (fst r,
                           F64.div (F64.sub (value_of data (snd r) j)
                                            (value_of data (snd r) i))
                                   (F64.of_Z (j - i))))
                (rows data)).
Proof.
  intros Hi Hj.
  destruct (position_In _ _ Hi) as [ki Hki].
  destruct (position_In _ _ Hj) as [kj Hkj].
  unfold abs_ann_change, getitem, locate, value_of. rewrite Hki, Hkj.
  cbn [bind]. unfold series_div, series_sub.
  rewrite combine_map_same, !map_map. reflexivity.
Qed.

(** C4. For each scenario and each pair of years of the table, the absolute
    annual change is [(value[end] - value[start]) / (end - start)], in
    binary64. *)
Theorem abs_ann_change_formula (data : frame) (i j : Z) :
  In i (columns data) -> In j (columns data) ->
  abs_ann_change data i j =
  Returned (map (fun r => (fst r,
                           F64.div (F64.sub (value_of data (snd r) j)
                                            (value_of data (snd r) i))
                                   (F64.of_Z (j - i))))
                (rows data)).
Proof.
  apply abs_ann_change_rows.
Qed.

(** The example of C4: the values 10.0 in 2010 and 0.0 in 2030 give -0.5. *)
Lemma abs_ann_change_formula_example :
  let s := {| model := "MESSAGE"; scenario_name := "SSP1-19";
              category := "1.5C low overshoot" |} in
  let data := {| columns := [2010; 2020; 2030];
                 rows := [(s, [F64.of_Z 10; F64.of_Z 5; F64.zero])] |} in
  abs_ann_change data 2010 2030
  = Returned [(s, F64.div (F64.of_Z (-1)) (F64.of_Z 2))]
  /\ format_fixed 1 (F64.div (F64.of_Z (-1)) (F64.of_Z 2)) = "-0.5"%string.
Proof.
  cbn zeta. split; [| reflexivity].
  rewrite abs_ann_change_formula.
  - vm_compute. reflexivity.
  - cbn. auto.
  - cbn. auto.
Defined.

Lemma present_app (a b : list float) : present (a ++ b) = present a ++ present b.
Proof. apply filter_app. Qed.

Lemma cohort_values_app (c : cohort) (a b : series) :
  cohort_values c (a ++ b) = cohort_values c a ++ cohort_values c b.
Proof. unfold cohort_values. now rewrite filter_app, map_app. Qed.

(** A missing value does not reach the values that are described. *)
Lemma present_without_missing (c : cohort) (s : scenario) (a b : series) :
  present (cohort_values c (a ++ (s, F64.nan) :: b))
  = present (cohort_values c (a ++ b)).
Proof.
  rewrite !cohort_values_app, !present_app. f_equal.
  unfold cohort_values at 1. cbn [filter fst].
  destruct (member c s); reflexivity.
Qed.

Lemma describe_present (reduce : stat -> list float -> float) (a b : list float) :
  present a = present b -> describe reduce a = describe reduce b.
Proof. intros H. unfold describe. rewrite H. reflexivity. Qed.

(** C7. When the value of a scenario is missing at the first or at the
    last year of a pair, its annual change is NaN, which is not zero; the
    records that [stats.add] makes are those of the series without this
    entry, and each count is the number of the values that are present. *)
Theorem abs_ann_change_missing (reduce : stat -> list float -> float)
    (data : frame) (i j : Z) (before after : list (scenario * list float))
    (s : scenario) (vals : list float) :
  In i (columns data) -> In j (columns data) ->
  rows data = before ++ (s, vals) :: after ->
  F64.isnan (value_of data vals i) || F64.isnan (value_of data vals j) = true ->
  exists cb ca,
    abs_ann_change data i j = Returned (cb ++ (s, F64.nan) :: ca)
    /\ List.length cb = List.length before
    /\ List.length ca = List.length after
    /\ F64.is_zero F64.nan = false
    /\ (forall lbl header row stats,
          stats_add reduce [(lbl, cb ++ (s, F64.nan) :: ca)] header row stats
          = stats_add reduce [(lbl, cb ++ ca)] header row stats)
    /\ (forall c,
          count (describe reduce (cohort_values c (cb ++ (s, F64.nan) :: ca)))
          = List.length (present (cohort_values c (cb ++ ca)))).
Proof.
  intros Hi Hj Hrows Hnan.
  rewrite (abs_ann_change_rows data i j Hi Hj), Hrows, map_app. cbn [map fst snd].
  assert (E : F64.div (F64.sub (value_of data vals j) (value_of data vals i))
                      (F64.of_Z (j - i)) = F64.nan).
  { apply orb_true_iff in Hnan. destruct Hnan as [H | H].
    - destruct (value_of data vals i); try discriminate.
      change S754_nan with F64.nan.
      now rewrite F64Facts.sub_nan_r, F64Facts.div_nan_l.
    - destruct (value_of data vals j); try discriminate.
      change S754_nan with F64.nan.
      now rewrite F64Facts.sub_nan_l, F64Facts.div_nan_l. }
  rewrite E.
  eexists. eexists. split; [reflexivity |].
  split; [apply length_map | split; [apply length_map | split; [reflexivity |]]].
  split.
  - intros lbl header row stats. unfold stats_add.
    destruct (filters stats) as [| c0 cs]; [reflexivity |].
    do 3 f_equal. unfold records.
    apply flat_map_ext. intros c. cbn [map fst snd]. do 2 f_equal.
    apply describe_present, present_without_missing.
  - intros c. unfold describe. cbn [count].
    now rewrite present_without_missing.
Qed.

Lemma abs_ann_change_missing_example :
  let s1 := {| model := "MESSAGE"; scenario_name := "SSP1-19";
               category := "1.5C low overshoot" |} in
  let s2 := {| model := "REMIND"; scenario_name := "SSP2-26";
               category := "Lower 2C" |} in
  let data := {| columns := [2010; 2020; 2030];
                 rows := [(s1, [F64.of_Z 10; F64.of_Z 5; F64.zero]);
                          (s2, [F64.of_Z 8; F64.of_Z 7; F64.nan])] |} in
  exists cb ca,
    abs_ann_change data 2010 2030 = Returned (cb ++ (s2, F64.nan) :: ca)
    /\ List.length cb = 1%nat
    /\ List.length ca = 0%nat
    /\ F64.is_zero F64.nan = false
    /\ (forall lbl header row stats,
          stats_add (fun _ vals => hd F64.nan vals)
                    [(lbl, cb ++ (s2, F64.nan) :: ca)] header row stats
          = stats_add (fun _ vals => hd F64.nan vals)
                      [(lbl, cb ++ ca)] header row stats)
    /\ (forall c,
          count (describe (fun _ vals => hd F64.nan vals)
                          (cohort_values c (cb ++ (s2, F64.nan) :: ca)))
          = List.length (present (cohort_values c (cb ++ ca)))).
Proof.
  cbn zeta.
  apply (abs_ann_change_missing (fun _ vals => hd F64.nan vals)
           {| columns := [2010; 2020; 2030];
              rows := [({| model := "MESSAGE"; scenario_name := "SSP1-19";
                           category := "1.5C low overshoot" |},
                        [F64.of_Z 10; F64.of_Z 5; F64.zero]);
                       ({| model := "REMIND"; scenario_name := "SSP2-26";
                           category := "Lower 2C" |},
                        [F64.of_Z 8; F64.of_Z 7; F64.nan])] |}
           2010 2030
           [({| model := "MESSAGE"; scenario_name := "SSP1-19";
                category := "1.5C low overshoot" |},
             [F64.of_Z 10; F64.of_Z 5; F64.zero])]
           []
           {| model := "REMIND"; scenario_name := "SSP2-26";
              category := "Lower 2C" |}
           [F64.of_Z 8; F64.of_Z 7; F64.nan]).
  - cbn. auto.
  - cbn. auto.
  - reflexivity.
  - reflexivity.
Defined.

(** ** The claims on the summary *)

Lemma summary_returned (stats : statistics) (tbl : table) :
  summary stats = Returned tbl ->
  let store := entries stats in
  let ks := map entry_key store in
  let cols := table_columns ks in
  tbl = {| t_columns := cols;
           t_rows := reindex (unique (map snd (table_index ks)))
                       (swaplevel
                          (map (summary_row CenterMedian Interquartile 1 store cols)
                               (table_index ks))) |}.
Proof.
  unfold summary, summarize. destruct (entries stats) as [| e store] eqn:E;
    [discriminate |].
  cbn [range_of summary_args fullrange interquartile center custom_format bind
       t_columns t_rows].
  intros H. inversion H. cbn zeta. do 2 f_equal.
  rewrite map_map. reflexivity.
Qed.

Lemma reindex_In (index : list string) (t : list table_row) (r : table_row) :
  In r (reindex index t) -> In r t.
Proof.
  unfold reindex. rewrite in_flat_map. intros (a & _ & Hr).
  apply filter_In in Hr. exact (proj1 Hr).
Qed.




(** ** The claim on the run *)

Lemma run_returned (reduce : stat -> list float -> float) (input : tables)
    (session stats : statistics) (tbl : table) :
  run reduce input session = Returned (stats, tbl) ->
  add_all reduce input (new_statistics input) = Returned stats
  /\ summary stats = Returned tbl.
Proof.
  unfold run.
  destruct (add_all reduce input (new_statistics input)) as [s |];
    cbn [bind]; [| discriminate].
  destruct (summary s) as [t |] eqn:E; cbn [bind]; [| discriminate].
  intros H. inversion H; subst. split; [reflexivity | exact E].
Qed.

(** The table of statistics of a run: the records of the six calls, in a
    new table. *)
Lemma run_entries (reduce : stat -> list float -> float) (input : tables)
    (stats : statistics) :
  add_all reduce input (new_statistics input) = Returned stats ->
  exists new,
    enters (add_all reduce input) (filters (new_statistics input)) new
    /\ map entry_key new = run_keys
    /\ filters stats = filters (new_statistics input)
    /\ entries stats = upserts new [].
Proof.
  intros H.
  destruct (add_all_enters reduce input (new_statistics input) stats eq_refl H)
    as (new & A & K).
  exists new. split; [exact A | split; [exact K |]].
  exact (enters_returned _ _ _ _ _ A eq_refl H).
Qed.



(** * Part III: further properties of the code *)

(** ** [year_of_net_zero] *)

Lemma last_present_some (pre : list (Z * float)) (p : Z * float) :
  last_present pre = Some p -> In p pre /\ missing p = false.
Proof.
  unfold last_present. intros H. apply find_some in H. destruct H as [Hin Hm].
  split; [apply in_rev; exact Hin | now apply negb_true_iff in Hm].
Qed.

(** The branch of the crossing that the loop reaches on a series split at
    its first value below the threshold. *)
Lemma year_of_net_zero_two_points_aux (data : list float) (years : list Z)
    (threshold : float) (pre post : list (Z * float)) (py y : Z) (pv v : float) :
  combine years data = pre ++ (y, v) :: post ->
  Forall (fun p => missing p = false -> below threshold p = false) pre ->
  last_present pre = Some (py, pv) ->
  F64.isnan v = false ->
  F64.ltb v threshold = true ->
  year_of_net_zero data years threshold = crossing threshold pv (Some py) y v
  /\ F64.isnan pv = false /\ F64.ltb pv threshold = false.
Proof.
  intros Hsplit Hpre Hlast Hn Hlt.
  destruct (last_present_some _ _ Hlast) as [Hin Hm].
  rewrite Forall_forall in Hpre. pose proof (Hpre _ Hin Hm) as Hb.
  unfold missing in Hm. unfold below in Hb. cbn [snd] in Hm, Hb.
  split; [| split; assumption].
  unfold year_of_net_zero. rewrite net_zero_loop_crossing_point, Hsplit.
  rewrite (crossing_point_split threshold F64.zero None pre post y v);
    [| apply Forall_forall; exact Hpre | exact Hn | exact Hlt].
  rewrite Hlast. reflexivity.
Qed.

(** X1.  What decides the result are two points: the last point that is present
    before the first value below the threshold, and that value with its
    year.  The entries before, between and after them change nothing. *)
Theorem year_of_net_zero_two_points (data : list float) (years : list Z)
    (threshold : float) (pre post : list (Z * float)) (py y : Z) (pv v : float) :
  combine years data = pre ++ (y, v) :: post ->
  Forall (fun p => missing p = false -> below threshold p = false) pre ->
  last_present pre = Some (py, pv) ->
  F64.isnan v = false ->
  F64.ltb v threshold = true ->
  year_of_net_zero data years threshold = crossing threshold pv (Some py) y v
  /\ year_of_net_zero data years threshold
     = year_of_net_zero [pv; v] [py; y] threshold.
Proof.
  intros Hsplit Hpre Hlast Hn Hlt.
  destruct (year_of_net_zero_two_points_aux data years threshold pre post
              py y pv v Hsplit Hpre Hlast Hn Hlt) as (E & Hm & Hb).
  split; [exact E |]. rewrite E.
  unfold year_of_net_zero. cbn [combine net_zero_loop].
  rewrite Hm, Hb, Hn, Hlt. reflexivity.
Qed.

Lemma year_of_net_zero_two_points_example :
  year_of_net_zero
    [F64.nan; F64.of_Z 4; F64.of_Z 2; F64.nan; F64.of_Z (-2); F64.of_Z 7]
    [2000; 2010; 2020; 2030; 2040; 2050] F64.zero
  = year_of_net_zero [F64.of_Z 2; F64.of_Z (-2)] [2020; 2040] F64.zero.
Proof.
  exact (proj2 (year_of_net_zero_two_points
                  [F64.nan; F64.of_Z 4; F64.of_Z 2; F64.nan; F64.of_Z (-2); F64.of_Z 7]
                  [2000; 2010; 2020; 2030; 2040; 2050] F64.zero
                  [(2000, F64.nan); (2010, F64.of_Z 4); (2020, F64.of_Z 2);
                   (2030, F64.nan)]
                  [(2050, F64.of_Z 7)] 2020 2040 (F64.of_Z 2) (F64.of_Z (-2))
                  eq_refl
                  ltac:(repeat constructor)
                  eq_refl eq_refl eq_refl)).
Defined.

(** X2.  The function returns an integer year or positive infinity, never a NaN
    or another float, and it raises nothing but [ValueError],
    [OverflowError] and [ZeroDivisionError]. *)
Theorem year_of_net_zero_result_shape (data : list float) (years : list Z)
    (threshold : float) :
  match year_of_net_zero data years threshold with
  | Returned (PyInt _) => True
  | Returned (PyFloat f) => f = F64.inf
  | Raised e => e = ValueError \/ e = OverflowError \/ e = ZeroDivisionError
  end.
Proof.
  unfold year_of_net_zero. rewrite net_zero_loop_crossing_point.
  destruct (crossing_point threshold F64.zero None (combine years data))
    as [[pv [py |] y v] |]; cbn [at_prev_val at_prev_yr at_yr at_val];
    [| | reflexivity].
  - unfold crossing, slope, year_gap, to_float, quotient, truediv, py_int.
    destruct (F64.is_inf (F64.of_Z (y - py))); cbn [bind]; [auto |].
    destruct (F64.is_zero (F64.of_Z (y - py))); cbn [bind]; [auto |].
    destruct (F64.is_zero (F64.div (F64.sub v pv) (F64.of_Z (y - py))));
      cbn [bind]; [auto |].
    destruct (F64.trunc _); cbn [bind add_years]; [exact I |].
    destruct (F64.isnan _); auto.
  - rewrite crossing_undefined. destruct (F64.is_inf (F64.of_Z y)); auto.
Qed.

Lemma ltb_nan_r (v : float) : F64.ltb v F64.nan = false.
Proof. destruct v; reflexivity. Qed.

Lemma ltb_neg_inf_r (v : float) : F64.ltb v (S754_infinity true) = false.
Proof. destruct v as [s | s | | s m e]; try destruct s; reflexivity. Qed.

(** X4.  A threshold that is NaN, or negative infinity, is never crossed: the
    function returns positive infinity for every series, and raises
    nothing. *)
Theorem year_of_net_zero_threshold_never (data : list float) (years : list Z) :
  year_of_net_zero data years F64.nan = Returned (PyFloat F64.inf)
  /\ year_of_net_zero data years (S754_infinity true) = Returned (PyFloat F64.inf).
Proof.
  split; unfold year_of_net_zero; apply net_zero_loop_never;
    apply Forall_forall; intros [y v] _ _; unfold below; cbn [snd];
    [apply ltb_nan_r | apply ltb_neg_inf_r].
Qed.

(** X6.  With threshold 0, when the last point before the crossing is exactly
    zero, the function returns the year after that point, whatever the
    value below zero and however far its year: the numerator of the
    quotient is [+0.0].  It raises when the slope is zero or NaN. *)
Theorem year_of_net_zero_after_exact_zero (data : list float) (years : list Z)
    (pre post : list (Z * float)) (py y : Z) (s : bool) (v : float) :
  combine years data = pre ++ (y, v) :: post ->
  Forall (fun p => missing p = false -> below F64.zero p = false) pre ->
  last_present pre = Some (py, S754_zero s) ->
  F64.isnan v = false ->
  F64.ltb v F64.zero = true ->
  year_of_net_zero data years F64.zero =
  (x <- slope (S754_zero s) (Some py) y v ;;
   if F64.is_zero x then Raised ZeroDivisionError
   else if F64.isnan x then Raised ValueError
        else Returned (PyInt (py + 1))).
Proof.
  intros Hsplit Hpre Hlast Hn Hlt.
  rewrite (proj1 (year_of_net_zero_two_points_aux data years F64.zero pre post
                    py y (S754_zero s) v Hsplit Hpre Hlast Hn Hlt)).
  unfold crossing.
  destruct (slope (S754_zero s) (Some py) y v) as [x | e]; cbn [bind];
    [| reflexivity].
  unfold quotient, truediv.
  destruct (F64.is_zero x) eqn:Ez; cbn [bind]; [reflexivity |].
  assert (E : F64.sub F64.zero (S754_zero s) = F64.zero)
    by (destruct s; reflexivity).
  rewrite E.
  destruct x as [sx | sx | | sx mx ex]; try discriminate; cbn;
    f_equal; f_equal; lia.
Qed.

Lemma year_of_net_zero_after_exact_zero_example :
  year_of_net_zero [F64.of_Z 5; F64.zero; F64.of_Z (-3)] [2040; 2050; 2060]
                   F64.zero
  = Returned (PyInt 2051).
Proof.
  rewrite (year_of_net_zero_after_exact_zero
             [F64.of_Z 5; F64.zero; F64.of_Z (-3)] [2040; 2050; 2060]
             [(2040, F64.of_Z 5); (2050, F64.zero)] [] 2050 2060 false
             (F64.of_Z (-3))
             eq_refl ltac:(repeat constructor) eq_refl eq_refl eq_refl).
  vm_compute. reflexivity.
Defined.

(** X7.  When the first value below the threshold has the year of the point
    before it, the difference of the years is [0] and the division of line
    210 raises [ZeroDivisionError]. *)
Theorem year_of_net_zero_repeated_year (data : list float) (years : list Z)
    (threshold : float) (pre post : list (Z * float)) (y : Z) (pv v : float) :
  combine years data = pre ++ (y, v) :: post ->
  Forall (fun p => missing p = false -> below threshold p = false) pre ->
  last_present pre = Some (y, pv) ->
  F64.isnan v = false ->
  F64.ltb v threshold = true ->
  year_of_net_zero data years threshold = Raised ZeroDivisionError.
Proof.
  intros Hsplit Hpre Hlast Hn Hlt.
  rewrite (proj1 (year_of_net_zero_two_points_aux data years threshold pre post
                    y y pv v Hsplit Hpre Hlast Hn Hlt)).
  unfold crossing, slope, year_gap. rewrite Z.sub_diag. reflexivity.
Qed.

Lemma year_of_net_zero_repeated_year_example :
  year_of_net_zero [F64.of_Z 1; F64.of_Z (-1)] [2030; 2030] F64.zero
  = Raised ZeroDivisionError.
Proof.
  exact (year_of_net_zero_repeated_year
           [F64.of_Z 1; F64.of_Z (-1)] [2030; 2030] F64.zero
           [(2030, F64.of_Z 1)] [] 2030 (F64.of_Z 1) (F64.of_Z (-1))
           eq_refl ltac:(repeat constructor) eq_refl eq_refl eq_refl).
Defined.

Lemma combine_app_l {A B : Type} (l : list A) (l' more : list B) :
  (List.length l <= List.length l')%nat ->
  combine l (l' ++ more) = combine l l'.
Proof.
  revert l'. induction l as [| a l IH]; intros l' H; [reflexivity |].
  destruct l' as [| b l']; [cbn in H; lia |].
  cbn [combine app]. f_equal. apply IH. cbn in H. lia.
Qed.

Lemma combine_app_r {A B : Type} (l more : list A) (l' : list B) :
  (List.length l' <= List.length l)%nat ->
  combine (l ++ more) l' = combine l l'.
Proof.
  revert l'. induction l as [| a l IH]; intros l' H.
  - destruct l' as [| b l']; [now destruct more | cbn in H; lia].
  - destruct l' as [| b l']; [reflexivity |].
    cbn [combine app]. f_equal. apply IH. cbn in H. lia.
Qed.

(** X8.  The function pairs the years with the values as [zip] does and checks
    no length: values without a year, and years without a value, are left
    out without an error. *)
Theorem year_of_net_zero_unpaired (data more_data : list float)
    (years more_years : list Z) (threshold : float) :
  List.length years = List.length data ->
  year_of_net_zero (data ++ more_data) years threshold
  = year_of_net_zero data years threshold
  /\ year_of_net_zero data (years ++ more_years) threshold
     = year_of_net_zero data years threshold.
Proof.
  intros H. unfold year_of_net_zero.
  rewrite combine_app_l, combine_app_r by lia. split; reflexivity.
Qed.

Lemma year_of_net_zero_unpaired_example :
  year_of_net_zero ([F64.of_Z 1; F64.of_Z 2] ++ [F64.of_Z (-1)]) [2020; 2030]
                   F64.zero
  = Returned (PyFloat F64.inf)
  /\ year_of_net_zero [F64.of_Z 1; F64.of_Z 2] ([2020; 2030] ++ [2040]) F64.zero
     = Returned (PyFloat F64.inf).
Proof.
  destruct (year_of_net_zero_unpaired [F64.of_Z 1; F64.of_Z 2] [F64.of_Z (-1)]
              [2020; 2030] [2040] F64.zero eq_refl) as [H1 H2].
  split; [exact (eq_trans H1 eq_refl) | exact (eq_trans H2 eq_refl)].
Defined.

(** ** [add_statistics] *)

Lemma sub_div_same (x : float) :
  F64.div (F64.sub x x) (F64.of_Z 0) = F64.nan.
Proof.
  destruct x as [s | s | | s m e]; try (destruct s; reflexivity); try reflexivity.
  unfold F64.sub. cbn [SFsub]. rewrite Z.sub_diag. reflexivity.
Qed.

(** X9.  A pair of equal years raises nothing: the change of every scenario is
    NaN, the quotient of zero (or of NaN) by zero. *)
Theorem abs_ann_change_same_year (data : frame) (i : Z) :
  In i (columns data) ->
  abs_ann_change data i i
  = Returned (map (fun r => (fst r, F64.nan)) (rows data)).
Proof.
  intros Hi. rewrite (abs_ann_change_rows data i i Hi Hi). f_equal.
  apply map_ext. intros r. rewrite Z.sub_diag, sub_div_same. reflexivity.
Qed.

Lemma abs_ann_change_same_year_example :
  let s := {| model := "MESSAGE"; scenario_name := "SSP1-19";
              category := "1.5C low overshoot" |} in
  abs_ann_change {| columns := [2010; 2030];
                    rows := [(s, [F64.of_Z 10; F64.zero])] |} 2030 2030
  = Returned [(s, F64.nan)].
Proof.
  cbn zeta.
  exact (abs_ann_change_same_year
           {| columns := [2010; 2030];
              rows := [({| model := "MESSAGE"; scenario_name := "SSP1-19";
                           category := "1.5C low overshoot" |},
                        [F64.of_Z 10; F64.zero])] |}
           2030 (or_intror (or_introl eq_refl))).
Defined.

Lemma position_nth_error (y : Z) (cols : list Z) (k : nat) :
  position y cols = Some k -> nth_error cols k = Some y.
Proof.
  revert k. induction cols as [| c cols IH]; intros k H; [discriminate |].
  cbn [position] in H. destruct (c =? y) eqn:E.
  - inversion H; subst k. apply Z.eqb_eq in E. subst. reflexivity.
  - destruct (position y cols) as [k' |]; [| discriminate].
    cbn [option_map] in H. inversion H; subst k. cbn [nth_error].
    exact (IH k' eq_refl).
Qed.

(** The positions of a list of years that are all columns. *)
Lemma mapM_locate (data : frame) (ys : list Z) :
  Forall (fun y => In y (columns data)) ys ->
  exists ks,
    mapM (locate data) ys = Returned ks
    /\ forall vals,
         map (fun k => value_at k vals) ks = map (value_of data vals) ys.
Proof.
  induction 1 as [| y ys Hy _ (ks & Hks & Hmap)].
  - exists []. split; [reflexivity | reflexivity].
  - destruct (position_In _ _ Hy) as [k Hk].
    exists (k :: ks). split.
    + cbn [mapM]. unfold locate at 1. rewrite Hk. cbn [bind]. rewrite Hks.
      reflexivity.
    + intros vals. cbn [map]. unfold value_of at 1. rewrite Hk, Hmap.
      reflexivity.
Qed.

(** X10.  [data[years]] keeps the values: the table it returns has the years
    that were asked for as its columns, the scenarios in their order, and
    at each of these years the value that [data] has there, a missing
    value staying missing. *)
Theorem getitems_keeps_values (data : frame) (ys : list Z) :
  Forall (fun y => In y (columns data)) ys ->
  exists snapshot,
    getitems data ys = Returned snapshot
    /\ columns snapshot = ys
    /\ rows snapshot
       = map (fun r => (fst r, map (value_of data (snd r)) ys)) (rows data)
    /\ (forall vals y,
          In y ys ->
          value_of snapshot (map (value_of data vals) ys) y
          = value_of data vals y).
Proof.
  intros H. destruct (mapM_locate data ys H) as (ks & Hks & Hmap).
  unfold getitems. rewrite Hks. cbn [bind].
  eexists. split; [reflexivity |]. cbn [columns rows].
  split; [reflexivity |]. split.
  - apply map_ext. intros r. now rewrite Hmap.
  - intros vals y Hy. unfold value_of at 1. cbn [columns].
    destruct (position_In _ _ Hy) as [k Hk]. rewrite Hk.
    unfold value_at. apply nth_error_nth.
    rewrite nth_error_map, (position_nth_error _ _ _ Hk). reflexivity.
Qed.

Lemma getitems_keeps_values_example :
  let s := {| model := "MESSAGE"; scenario_name := "SSP1-19";
              category := "1.5C low overshoot" |} in
  let data := {| columns := [2005; 2010; 2020; 2030];
                 rows := [(s, [F64.of_Z 9; F64.of_Z 8; F64.nan; F64.of_Z 2])] |} in
  exists snapshot,
    getitems data [2030; 2010] = Returned snapshot
    /\ columns snapshot = [2030; 2010]
    /\ rows snapshot = [(s, [F64.of_Z 2; F64.of_Z 8])].
Proof.
  cbn zeta.
  destruct (getitems_keeps_values
              {| columns := [2005; 2010; 2020; 2030];
                 rows := [({| model := "MESSAGE"; scenario_name := "SSP1-19";
                              category := "1.5C low overshoot" |},
                           [F64.of_Z 9; F64.of_Z 8; F64.nan; F64.of_Z 2])] |}
              [2030; 2010]
              ltac:(repeat (apply Forall_cons; [cbn; auto 10 |]);
                    apply Forall_nil))
    as (snapshot & H1 & H2 & H3 & _).
  exists snapshot. split; [exact H1 | split; [exact H2 | exact H3]].
Defined.

Section AddStatistics.

Variable reduce : stat -> list float -> float.

Lemma mapM_raises {A B : Type} (f : A -> result B) (l : list A) (a : A) :
  In a l -> raises (f a) -> raises (mapM f l).
Proof.
  induction l as [| a' l IH]; intros Hin Hr; [destruct Hin |].
  cbn [mapM]. destruct (f a') as [b | e] eqn:Ef; [| apply raises_raised].
  cbn [bind]. destruct Hin as [-> | Hin].
  - destruct Hr as [e He]. congruence.
  - destruct (IH Hin Hr) as [e He]. rewrite He. apply raises_raised.
Qed.

Lemma apply_net_zero_raises (data : frame) (r : scenario * list float) :
  In r (rows data) ->
  raises (year_of_net_zero (snd r) (columns data) F64.zero) ->
  raises (apply_net_zero data).
Proof.
  intros Hin [e He]. unfold apply_net_zero.
  apply (mapM_raises _ _ r Hin). rewrite He. apply raises_raised.
Qed.

Lemma add_statistics_net_zero_raises_aux (data : frame) (row : string)
    (ys : list Z) (cys : list (Z * Z)) (h hc hz : string) (stats : statistics)
    (r : scenario * list float) :
  In r (rows data) ->
  raises (year_of_net_zero (snd r) (columns data) F64.zero) ->
  raises (add_statistics reduce data row ys cys h hc hz true stats).
Proof.
  intros Hin Hr. unfold add_statistics.
  destruct (getitems data ys) as [snapshot | e]; cbn [bind];
    [| apply raises_raised].
  destruct (stats_add reduce _ h row stats) as [stats0 | e]; cbn [bind];
    [| apply raises_raised].
  destruct (add_changes reduce data row cys hc stats0) as [stats1 | e];
    cbn [bind]; [| apply raises_raised].
  destruct (apply_net_zero_raises data r Hin Hr) as [e He]. rewrite He.
  apply raises_raised.
Qed.

End AddStatistics.

(** X13.  One series on which [year_of_net_zero] raises stops the whole call:
    [add_statistics] with the year of net-zero raises, and returns no
    statistics for the other scenarios either. *)
Theorem add_statistics_net_zero_raises (reduce : stat -> list float -> float)
    (data : frame) (row : string)
    (ys : list Z) (cys : list (Z * Z)) (h hc hz : string) (stats : statistics)
    (r : scenario * list float) :
  In r (rows data) ->
  raises (year_of_net_zero (snd r) (columns data) F64.zero) ->
  raises (add_statistics reduce data row ys cys h hc hz true stats).
Proof.
  apply add_statistics_net_zero_raises_aux.
Qed.

Lemma add_statistics_net_zero_raises_example :
  let reduce := fun (_ : stat) (vals : list float) => hd F64.nan vals in
  let s1 := {| model := "MESSAGE"; scenario_name := "SSP1-19";
               category := "1.5C low overshoot" |} in
  let s2 := {| model := "REMIND"; scenario_name := "SSP2-26";
               category := "Lower 2C" |} in
  let data := {| columns := [2010; 2030];
                 rows := [(s1, [F64.of_Z 10; F64.of_Z 4]);
                          (s2, [F64.of_Z (-1); F64.of_Z 5])] |} in
  let stats :=
    {| filters := [ {| cohort_name := "lo os 1.5";
                       cohort_categories := ["1.5C low overshoot"%string] |};
                    {| cohort_name := "lower 2.0";
                       cohort_categories := ["Lower 2C"%string] |} ];
       entries := [] |} in
  raises (add_statistics reduce data "Total CO2 (net)" [2010; 2030]
            [(2010, 2030)] header header_change header_zero true stats)
  /\ add_statistics reduce data "Total CO2 (net)" [2010; 2030]
       [(2010, 2030)] header header_change header_zero true stats
     = Raised ValueError
  /\ exists stats',
       add_statistics reduce data "Total CO2 (net)" [2010; 2030]
         [(2010, 2030)] header header_change header_zero false stats
       = Returned stats'.
Proof.
  intros reduce s1 s2 data stats. split; [| split].
  - apply (add_statistics_net_zero_raises reduce data "Total CO2 (net)"
             [2010; 2030] [(2010, 2030)] header header_change header_zero
             stats (s2, [F64.of_Z (-1); F64.of_Z 5])).
    + right. left. reflexivity.
    + exists ValueError. vm_compute. reflexivity.
  - vm_compute. reflexivity.
  - eexists. vm_compute. reflexivity.
Defined.

(** ** Adding again *)




(** ** The run *)

Lemma filter_map_swap {A B : Type} (f : A -> B) (p : B -> bool) (l : list A) :
  filter p (map f l) = map f (filter (fun a => p (f a)) l).
Proof.
  induction l as [| a l IH]; [reflexivity |].
  cbn [map filter]. destruct (p (f a)); cbn [map]; now rewrite IH.
Qed.

Lemma reindex_index (index : list string) (t : list table_row) :
  map r_index (reindex index t)
  = flat_map (fun a => filter (fun p => String.eqb a (fst p)) (map r_index t))
             index.
Proof.
  unfold reindex. induction index as [| a index IH]; [reflexivity |].
  cbn [flat_map]. rewrite map_app, IH, filter_map_swap. reflexivity.
Qed.

(** The layout of the summary follows from the keys of the table. *)
Lemma summary_layout (stats : statistics) (tbl : table) :
  summary stats = Returned tbl ->
  let ks := map entry_key (entries stats) in
  t_columns tbl = table_columns ks
  /\ map r_index (t_rows tbl) = summary_index ks
  /\ Forall (fun r => List.length (r_cells r) = List.length (t_columns tbl))
            (t_rows tbl).
Proof.
  intros H. rewrite (summary_returned stats tbl H). cbn [t_columns t_rows].
  split; [reflexivity |]. split.
  - rewrite reindex_index. unfold swaplevel, summary_index.
    rewrite !map_map. cbn [r_index summary_row fst snd]. reflexivity.
  - apply Forall_forall. intros r Hr. apply reindex_In in Hr.
    unfold swaplevel in Hr. apply in_map_iff in Hr.
    destruct Hr as (r0 & <- & Hr0). apply in_map_iff in Hr0.
    destruct Hr0 as (line & <- & _).
    cbn [summary_row r_cells]. apply length_map.
Qed.

Lemma run_keys_entered (reduce : stat -> list float -> float) (input : tables)
    (session stats : statistics) (tbl : table) :
  run reduce input session = Returned (stats, tbl) ->
  map entry_key (entries stats) = keys_upserts run_keys [].
Proof.
  intros H. destruct (run_returned _ _ _ _ _ H) as [Ha _].
  destruct (run_entries _ _ _ Ha) as (new & _ & K & _ & E).
  rewrite E, upserts_keys, K. reflexivity.
Qed.

(** X18.  A run that returns leaves 640 records, each at a key of its own,
    and exports a table of 48 lines, one for each of the 6 row labels and
    8 cohorts, with the column of counts and 14 columns of cells: the 10
    reference years, the 3 pairs of years and the year of net-zero. *)
Theorem run_table_shape (reduce : stat -> list float -> float) (input : tables)
    (session stats : statistics) (tbl : table) :
  run reduce input session = Returned (stats, tbl) ->
  List.length (entries stats) = 640%nat
  /\ NoDup (map entry_key (entries stats))
  /\ List.length (t_rows tbl) = 48%nat
  /\ List.length (t_columns tbl) = 14%nat
  /\ Forall (fun r => List.length (r_cells r) = 14%nat) (t_rows tbl).
Proof.
  intros H. pose proof (run_keys_entered _ _ _ _ _ H) as K.
  destruct (run_returned _ _ _ _ _ H) as [_ Hs].
  destruct (summary_layout _ _ Hs) as (Hc & Hi & Hl). rewrite K in Hc, Hi.
  assert (L : List.length (t_columns tbl) = 14%nat)
    by (rewrite Hc; vm_compute; reflexivity).
  split; [| split; [| split; [| split]]].
  - rewrite <- (length_map entry_key), K. vm_compute. reflexivity.
  - rewrite K. apply keys_upserts_NoDup. constructor.
  - rewrite <- (length_map r_index), Hi. vm_compute. reflexivity.
  - exact L.
  - rewrite L in Hl. exact Hl.
Qed.

(** X19.  The table of a run is laid out as Table 2.4: the lines under
    the six row labels in the order of the calls, under each the eight
    cohorts in the order of line 166; the columns are the reference years,
    the pairs of years and the year of net-zero, each under its header. *)
Theorem run_table_layout (reduce : stat -> list float -> float) (input : tables)
    (session stats : statistics) (tbl : table) :
  run reduce input session = Returned (stats, tbl) ->
  map r_index (t_rows tbl)
  = flat_map (fun row => map (pair row) cohort_names) row_labels
  /\ t_columns tbl
     = map (fun y => (header, LabelInt y)) years
       ++ map (fun p => (header_change, LabelStr (pair_label (fst p) (snd p))))
              compare_years
       ++ [(header_zero, LabelStr "year")].
Proof.
  intros H. pose proof (run_keys_entered _ _ _ _ _ H) as K.
  destruct (run_returned _ _ _ _ _ H) as [_ Hs].
  destruct (summary_layout _ _ Hs) as (Hc & Hi & _). rewrite K in Hc, Hi.
  split.
  - rewrite Hi. vm_compute. reflexivity.
  - rewrite Hc. vm_compute. reflexivity.
Qed.

Lemma bind_raises_l {A B : Type} (r : result A) (k : A -> result B) :
  raises r -> raises (bind r k).
Proof. intros [e ->]. apply raises_raised. Qed.

Lemma bind_raises_r {A B : Type} (r : result A) (k : A -> result B) :
  (forall a, raises (k a)) -> raises (bind r k).
Proof.
  intros H. destruct r as [a | e]; [apply H | apply raises_raised].
Qed.

(** X17.  The run has no cell on its own: one series of the total CO2 or of the
    Kyoto gases on which [year_of_net_zero] raises, as a series that starts
    below zero does, makes the whole run raise, and no table is exported. *)
Theorem run_net_zero_raises (reduce : stat -> list float -> float)
    (input : tables) (session : statistics) (data : frame)
    (r : scenario * list float) :
  data = co2 input \/ data = ghg input ->
  In r (rows data) ->
  raises (year_of_net_zero (snd r) (columns data) F64.zero) ->
  raises (run reduce input session).
Proof.
  intros Hdata Hin Hr. unfold run. apply bind_raises_l. unfold add_all.
  destruct Hdata as [-> | ->].
  - apply bind_raises_l. unfold add_with_settings.
    exact (add_statistics_net_zero_raises_aux reduce _ _ _ _ _ _ _ _ r Hin Hr).
  - do 5 (apply bind_raises_r; intros ?). unfold add_with_settings.
    exact (add_statistics_net_zero_raises_aux reduce _ _ _ _ _ _ _ _ r Hin Hr).
Qed.

Lemma run_table_shape_example :
  let reduce := fun (_ : stat) (vals : list float) => hd F64.nan vals in
  let s := {| model := "MESSAGE"; scenario_name := "SSP1-19";
              category := "1.5C low overshoot" |} in
  let data := {| columns := years;
                 rows := [(s, map F64.of_Z [10; 9; 8; 7; 6; 5; 4; 3; 2; 1])] |} in
  let input := {| co2 := data; co2_ene_ind_gross := data; co2_ene_ind := data;
                  co2_afolu := data; ccs_bio := data; ghg := data;
                  cats_15_no_lo := ["Below 1.5C"; "1.5C low overshoot"]%string |} in
  exists stats tbl,
    run reduce input {| filters := []; entries := [] |} = Returned (stats, tbl)
    /\ List.length (entries stats) = 640%nat
    /\ List.length (t_rows tbl) = 48%nat
    /\ List.length (t_columns tbl) = 14%nat.
Proof.
  intros reduce s data input.
  destruct (run reduce input {| filters := []; entries := [] |})
    as [[stats tbl] | e] eqn:E.
  - exists stats, tbl. split; [reflexivity |].
    destruct (run_table_shape reduce input _ stats tbl E)
      as (H1 & _ & H2 & H3 & _).
    repeat split; assumption.
  - exfalso. vm_compute in E. discriminate E.
Defined.

Lemma run_table_layout_example :
  let reduce := fun (_ : stat) (vals : list float) => hd F64.nan vals in
  let s := {| model := "MESSAGE"; scenario_name := "SSP1-19";
              category := "1.5C low overshoot" |} in
  let data := {| columns := years;
                 rows := [(s, map F64.of_Z [10; 9; 8; 7; 6; 5; 4; 3; 2; 1])] |} in
  let input := {| co2 := data; co2_ene_ind_gross := data; co2_ene_ind := data;
                  co2_afolu := data; ccs_bio := data; ghg := data;
                  cats_15_no_lo := ["Below 1.5C"; "1.5C low overshoot"]%string |} in
  exists stats tbl,
    run reduce input {| filters := []; entries := [] |} = Returned (stats, tbl)
    /\ hd_error (map r_index (t_rows tbl))
       = Some ("Total CO2 (net)"%string, "below 1.5"%string)
    /\ hd_error (t_columns tbl) = Some (header, LabelInt 2010).
Proof.
  intros reduce s data input.
  destruct (run reduce input {| filters := []; entries := [] |})
    as [[stats tbl] | e] eqn:E.
  - exists stats, tbl. split; [reflexivity |].
    destruct (run_table_layout reduce input _ stats tbl E) as (H1 & H2).
    rewrite H1, H2. split; reflexivity.
  - exfalso. vm_compute in E. discriminate E.
Defined.

Lemma run_net_zero_raises_example :
  let reduce := fun (_ : stat) (vals : list float) => hd F64.nan vals in
  let s := {| model := "MESSAGE"; scenario_name := "SSP1-19";
              category := "1.5C low overshoot" |} in
  let good := {| columns := years;
                 rows := [(s, map F64.of_Z [10; 9; 8; 7; 6; 5; 4; 3; 2; 1])] |} in
  let bad := {| columns := years;
                rows := [(s, map F64.of_Z [-1; 9; 8; 7; 6; 5; 4; 3; 2; 1])] |} in
  let input := {| co2 := good; co2_ene_ind_gross := good; co2_ene_ind := good;
                  co2_afolu := good; ccs_bio := good; ghg := bad;
                  cats_15_no_lo := ["Below 1.5C"; "1.5C low overshoot"]%string |} in
  raises (run reduce input {| filters := []; entries := [] |})
  /\ run reduce input {| filters := []; entries := [] |} = Raised ValueError.
Proof.
  intros reduce s good bad input. split.
  - apply (run_net_zero_raises reduce input _ bad
             (s, map F64.of_Z [-1; 9; 8; 7; 6; 5; 4; 3; 2; 1])).
    + right. reflexivity.
    + left. reflexivity.
    + exists ValueError. vm_compute. reflexivity.
  - vm_compute. reflexivity.
Defined.

(** ** Positive infinity as the mark of no crossing *)

Lemma crossing_not_float (threshold prev_val : float) (prev_yr : option Z)
    (yr : Z) (val f : float) :
  crossing threshold prev_val prev_yr yr val <> Returned (PyFloat f).
Proof.
  destruct prev_yr as [py |].
  - unfold crossing, add_years.
    destruct (slope prev_val (Some py) yr val) as [x | e]; cbn [bind];
      [| discriminate].
    destruct (quotient threshold prev_val x) as [q | e]; cbn [bind];
      [| discriminate].
    destruct (py_int q) as [n | e]; cbn [bind]; discriminate.
  - rewrite crossing_undefined. destruct (F64.is_inf (F64.of_Z yr)); discriminate.
Qed.

Lemma net_zero_loop_inf (threshold prev_val : float) (prev_yr : option Z)
    (pairs : list (Z * float)) :
  net_zero_loop threshold prev_val prev_yr pairs = Returned (PyFloat F64.inf) ->
  Forall (fun p => missing p = false -> below threshold p = false) pairs.
Proof.
  revert prev_val prev_yr.
  induction pairs as [| [yr val] rest IH]; intros prev_val prev_yr H;
    [constructor |].
  cbn [net_zero_loop] in H. unfold missing, below.
  destruct (F64.isnan val) eqn:En.
  - constructor; [cbn [snd]; congruence | exact (IH _ _ H)].
  - destruct (F64.ltb val threshold) eqn:El.
    + exfalso. exact (crossing_not_float _ _ _ _ _ _ H).
    + constructor; [cbn [snd]; intros _; exact El | exact (IH _ _ H)].
Qed.

Lemma year_of_net_zero_inf_iff_aux (data : list float) (years : list Z)
    (threshold : float) :
  year_of_net_zero data years threshold = Returned (PyFloat F64.inf)
  <-> Forall (fun p => missing p = false -> below threshold p = false)
             (combine years data).
Proof.
  unfold year_of_net_zero. split.
  - apply net_zero_loop_inf.
  - apply net_zero_loop_never.
Qed.

(** X3.  The function returns positive infinity exactly when no value that is
    present, among those paired with a year, is below the threshold: the
    branch of the crossing returns an integer or raises, never infinity. *)
Theorem year_of_net_zero_inf_iff (data : list float) (years : list Z)
    (threshold : float) :
  year_of_net_zero data years threshold = Returned (PyFloat F64.inf)
  <-> Forall (fun p => missing p = false -> below threshold p = false)
             (combine years data).
Proof.
  apply year_of_net_zero_inf_iff_aux.
Qed.

Lemma leb_ltb_false (a b : float) : F64.leb a b = true -> F64.ltb b a = false.
Proof.
  unfold F64.leb, F64.ltb, SFleb, SFltb. rewrite (F64Facts.compare_antisym a b).
  destruct (SFcompare a b) as [[ | | ] |]; cbn; congruence.
Qed.

(** X5.  A series that never goes below a threshold never goes below a lower
    one: positive infinity for a threshold is positive infinity for each
    threshold at or below it. *)
Theorem year_of_net_zero_lower_threshold (data : list float) (years : list Z)
    (low high : float) :
  F64.leb low high = true ->
  year_of_net_zero data years high = Returned (PyFloat F64.inf) ->
  year_of_net_zero data years low = Returned (PyFloat F64.inf).
Proof.
  intros Hle H. apply year_of_net_zero_inf_iff_aux.
  apply year_of_net_zero_inf_iff_aux in H.
  eapply Forall_impl; [| exact H]. intros [y v]. unfold missing, below.
  cbn [snd]. intros Hp Hm. specialize (Hp Hm).
  destruct (F64.ltb v low) eqn:El; [| reflexivity].
  rewrite (F64Facts.ltb_leb_trans v low high El (leb_ltb_false _ _ Hle)
             (proj2 (F64Facts.leb_not_nan _ _ Hle))) in Hp.
  discriminate.
Qed.

Lemma year_of_net_zero_lower_threshold_example :
  year_of_net_zero [F64.of_Z 3; F64.of_Z 1; F64.of_Z (-1)] [2010; 2020; 2030]
                   (F64.of_Z (-5))
  = Returned (PyFloat F64.inf).
Proof.
  apply (year_of_net_zero_lower_threshold
           [F64.of_Z 3; F64.of_Z 1; F64.of_Z (-1)] [2010; 2020; 2030]
           (F64.of_Z (-5)) (F64.of_Z (-2))); reflexivity.
Defined.

(** X14.  On a table in which no value that is present is below zero, line 251
    returns positive infinity for every scenario, in the order of the
    rows, and raises nothing. *)
Theorem apply_net_zero_never (data : frame) :
  (forall r v, In r (rows data) -> In v (snd r) ->
               F64.isnan v = false -> F64.ltb v F64.zero = false) ->
  apply_net_zero data
  = Returned (map (fun r => (fst r, F64.inf)) (rows data)).
Proof.
  unfold apply_net_zero. intros H.
  induction (rows data) as [| r rs IH]; [reflexivity |].
  cbn [mapM map].
  assert (E : year_of_net_zero (snd r) (columns data) F64.zero
              = Returned (PyFloat F64.inf)).
  { unfold year_of_net_zero. apply net_zero_loop_never.
    apply Forall_forall. intros [y v] Hin. unfold missing, below. cbn [snd].
    apply (H r v); [now left | exact (in_combine_r _ _ _ _ Hin)]. }
  rewrite E. cbn [bind as_float].
  rewrite IH by (intros r' v Hr; apply H; now right). reflexivity.
Qed.

Lemma apply_net_zero_never_example :
  let s1 := {| model := "MESSAGE"; scenario_name := "SSP1-19";
               category := "1.5C low overshoot" |} in
  let s2 := {| model := "REMIND"; scenario_name := "SSP2-26";
               category := "Lower 2C" |} in
  apply_net_zero {| columns := [2010; 2030];
                    rows := [(s1, [F64.of_Z 10; F64.zero]);
                             (s2, [F64.nan; F64.of_Z 5])] |}
  = Returned [(s1, F64.inf); (s2, F64.inf)].
Proof.
  intros s1 s2.
  apply (apply_net_zero_never
           {| columns := [2010; 2030];
              rows := [(s1, [F64.of_Z 10; F64.zero]);
                       (s2, [F64.nan; F64.of_Z 5])] |}).
  intros r v Hr Hv Hn. cbn [rows In] in Hr.
  destruct Hr as [<- | [<- | []]]; cbn [snd In] in Hv;
    destruct Hv as [<- | [<- | []]]; first [discriminate Hn | reflexivity].
Defined.
